(** * tweepy/client.py: the request pipeline of the API binding

    A shallow embedding of [tweepy.client.Client] (Python 2) and of the
    pieces of the Python runtime its request pipeline relies on: the [%]
    string-formatting operator, [urlparse.urljoin], [dict(...)] and name
    resolution.  The collaborators the client is handed (the parser, the
    [requests] session, the file system) are parameters of the model. *)

From Stdlib Require Import Ascii ZArith.
From stdpp Require Import base option list strings gmap.

(** ** Exceptions and results *)

(** The exceptions that can leave the pipeline.  [TweepyError] is the
    binding's own error type (imported from the [tweepy] package); the others
    are Python built-ins. *)
Inductive exn : Type :=
| TweepyError (msg : string)
| TypeError (msg : string)
| ValueError (msg : string)
| NameError (msg : string)
| AttributeError (msg : string)
| IOError (msg : string).

(** A Python expression either evaluates to a value or raises. *)
Inductive outcome (A : Type) : Type :=
| Ok (a : A)
| Raise (e : exn).
Arguments Ok {A} a.
Arguments Raise {A} e.

Definition obind {A B} (o : outcome A) (f : A -> outcome B) : outcome B :=
  match o with
  | Ok a => f a
  | Raise e => Raise e
  end.

(** ** Python [str] primitives

    A Python 2 [str] is a byte string; it is modelled by [string]. *)

(** [s[n:]] *)
Fixpoint str_from (n : nat) (s : string) : string :=
  match n, s with
  | O, _ => s
  | S _, EmptyString => EmptyString
  | S n', String _ s' => str_from n' s'
  end.

(** [s[:n]] *)
Fixpoint str_upto (n : nat) (s : string) : string :=
  match n, s with
  | O, _ => EmptyString
  | S _, EmptyString => EmptyString
  | S n', String a s' => String a (str_upto n' s')
  end.

(** [s.find(c)]: the index of the first [c], [None] for Python's [-1]. *)
Fixpoint str_find (c : ascii) (s : string) : option nat :=
  match s with
  | EmptyString => None
  | String a s' => if Ascii.eqb a c then Some O else option_map S (str_find c s')
  end.

(** [s.find(c, start)] *)
Definition str_find_from (c : ascii) (start : nat) (s : string) : option nat :=
  option_map (Nat.add start) (str_find c (str_from start s)).

(** [s.rfind(c)] *)
Fixpoint str_rfind (c : ascii) (s : string) : option nat :=
  match s with
  | EmptyString => None
  | String a s' =>
      match str_rfind c s' with
      | Some i => Some (S i)
      | None => if Ascii.eqb a c then Some O else None
      end
  end.

(** [c in s] *)
Definition str_contains (c : ascii) (s : string) : bool :=
  match str_find c s with Some _ => true | None => false end.

(** [s.split(c, 1)] when [c in s]: the text before and after the first [c]. *)
Definition str_split1 (c : ascii) (s : string) : string * string :=
  match str_find c s with
  | Some i => (str_upto i s, str_from (S i) s)
  | None => (s, EmptyString)
  end.

(** [s.split(c)]: always at least one field. *)
Fixpoint str_split (c : ascii) (s : string) : list string :=
  match s with
  | EmptyString => [EmptyString]
  | String a s' =>
      if Ascii.eqb a c then EmptyString :: str_split c s'
      else match str_split c s' with
           | [] => [String a EmptyString]
           | w :: ws => String a w :: ws
           end
  end.

(** [sep.join(l)] *)
Fixpoint str_join (sep : string) (l : list string) : string :=
  match l with
  | [] => EmptyString
  | [w] => w
  | w :: ws => w +:+ sep +:+ str_join sep ws
  end.

Fixpoint str_all (p : ascii -> bool) (s : string) : bool :=
  match s with
  | EmptyString => true
  | String a s' => p a && str_all p s'
  end.

Definition is_digit (c : ascii) : bool :=
  let n := nat_of_ascii c in (48 <=? n)%nat && (n <=? 57)%nat.

Definition is_upper (c : ascii) : bool :=
  let n := nat_of_ascii c in (65 <=? n)%nat && (n <=? 90)%nat.

Definition is_lower (c : ascii) : bool :=
  let n := nat_of_ascii c in (97 <=? n)%nat && (n <=? 122)%nat.

Definition chr_lower (c : ascii) : ascii :=
  if is_upper c then ascii_of_nat (nat_of_ascii c + 32) else c.

(** [s.lower()] *)
Fixpoint str_lower (s : string) : string :=
  match s with
  | EmptyString => EmptyString
  | String a s' => String (chr_lower a) (str_lower s')
  end.

Fixpoint spaces (n : nat) : string :=
  match n with
  | O => EmptyString
  | S n' => String " " (spaces n')
  end.

(** ** The [%] operator on [str]

    [py_format fmt args] is [fmt % args] for a tuple [args] of [str] values
    (a single non-tuple right operand is the one-element tuple), after
    CPython 2's [PyString_Format]: a conversion specifier is [%], optional
    flags, a width, a precision, a length modifier and the conversion
    character. *)

Definition hex_digit (n : nat) : ascii :=
  if (n <? 10)%nat then ascii_of_nat (48 + n) else ascii_of_nat (87 + n).

(** [repr(s)] for a [str] *)
Definition repr_char (quote : ascii) (c : ascii) : string :=
  let n := nat_of_ascii c in
  if Ascii.eqb c quote || Ascii.eqb c "\" then String "\" (String c EmptyString)
  else if Ascii.eqb c "009" then "\t"
  else if Ascii.eqb c "010" then "\n"
  else if Ascii.eqb c "013" then "\r"
  else if (n <? 32)%nat || (127 <=? n)%nat then
    String "\" (String "x" (String (hex_digit (n / 16)) (String (hex_digit (n mod 16)) EmptyString)))
  else String c EmptyString.

Fixpoint repr_body (quote : ascii) (s : string) : string :=
  match s with
  | EmptyString => String quote EmptyString
  | String a s' => repr_char quote a +:+ repr_body quote s'
  end.

Definition py_repr (s : string) : string :=
  let quote := if str_contains "'" s && negb (str_contains "034" s) then "034"%char else "'"%char in
  String quote (repr_body quote s).

(** Padding of a converted field to [width], left-justified under the [-] flag. *)
Definition pad (ljust : bool) (width : nat) (s : string) : string :=
  let n := String.length s in
  if ljust then s +:+ spaces (width - n) else spaces (width - n) +:+ s.

Definition truncate (prec : option nat) (s : string) : string :=
  match prec with
  | Some p => str_upto p s
  | None => s
  end.

Definition is_flag (c : ascii) : bool :=
  Ascii.eqb c "-" || Ascii.eqb c "+" || Ascii.eqb c " " || Ascii.eqb c "#" || Ascii.eqb c "0".

Definition is_length_modifier (c : ascii) : bool :=
  Ascii.eqb c "h" || Ascii.eqb c "l" || Ascii.eqb c "L".

Definition digit_value (c : ascii) : nat := nat_of_ascii c - 48.

(** Where the scanner stands inside a conversion specifier. *)
Inductive spec_state : Type :=
| AfterPercent                                  (* just read [%] *)
| InFlags (ljust : bool)
| InWidth (ljust : bool) (width : nat)
| AfterDot (ljust : bool) (width : nat)
| InPrec (ljust : bool) (width : nat) (prec : nat)
| AtConv (ljust : bool) (width : nat) (prec : option nat).

(** The conversion itself: [c] is the conversion character. *)
Definition convert (c : ascii) (ljust : bool) (width : nat) (prec : option nat)
    (args : list string) : outcome (string * list string) :=
  if Ascii.eqb c "%" then Ok (pad ljust width "%", args)
  else match args with
       | [] => Raise (TypeError "not enough arguments for format string")
       | v :: rest =>
           if Ascii.eqb c "s" then Ok (pad ljust width (truncate prec v), rest)
           else if Ascii.eqb c "r" then Ok (pad ljust width (truncate prec (py_repr v)), rest)
           else if Ascii.eqb c "c" then
             if (String.length v =? 1)%nat then Ok (pad ljust width v, rest)
             else Raise (TypeError "%c requires int or char")
           else if str_contains c "diuoxX" then
             Raise (TypeError "%d format: a number is required, not str")
           else if str_contains c "eEfFgG" then
             Raise (TypeError "float argument required, not str")
           else Raise (ValueError "unsupported format character")
       end.

(** A [*] width or precision takes the next argument, which must be an int;
    the arguments here are all [str]. *)
Definition star (args : list string) : exn :=
  match args with
  | [] => TypeError "not enough arguments for format string"
  | _ :: _ => TypeError "* wants int"
  end.

Fixpoint format_scan (st : option spec_state) (fmt : string) (args : list string)
    : outcome string :=
  match fmt with
  | EmptyString =>
      match st with
      | None =>
          match args with
          | [] => Ok EmptyString
          | _ :: _ => Raise (TypeError "not all arguments converted during string formatting")
          end
      | Some _ => Raise (ValueError "incomplete format")
      end
  | String c fmt' =>
      let literal :=
        obind (format_scan None fmt' args) (fun out => Ok (String c out)) in
      let conv ljust width prec :=
        obind (convert c ljust width prec args) (fun '(field, rest) =>
        obind (format_scan None fmt' rest) (fun out => Ok (field +:+ out))) in
      let after_prec ljust width prec :=
        if is_length_modifier c then format_scan (Some (AtConv ljust width prec)) fmt' args
        else conv ljust width prec in
      let after_width ljust width :=
        if Ascii.eqb c "." then format_scan (Some (AfterDot ljust width)) fmt' args
        else after_prec ljust width None in
      let after_flags ljust :=
        if Ascii.eqb c "*" then Raise (star args)
        else if is_digit c then format_scan (Some (InWidth ljust (digit_value c))) fmt' args
        else after_width ljust 0%nat in
      let flags ljust :=
        if is_flag c then format_scan (Some (InFlags (ljust || Ascii.eqb c "-"))) fmt' args
        else after_flags ljust in
      match st with
      | None =>
          if Ascii.eqb c "%" then format_scan (Some AfterPercent) fmt' args else literal
      | Some AfterPercent =>
          if Ascii.eqb c "(" then Raise (TypeError "format requires a mapping")
          else flags false
      | Some (InFlags ljust) => flags ljust
      | Some (InWidth ljust width) =>
          if is_digit c then
            format_scan (Some (InWidth ljust (width * 10 + digit_value c))) fmt' args
          else after_width ljust width
      | Some (AfterDot ljust width) =>
          if Ascii.eqb c "*" then Raise (star args)
          else if is_digit c then
            format_scan (Some (InPrec ljust width (digit_value c))) fmt' args
          else after_prec ljust width (Some 0%nat)
      | Some (InPrec ljust width prec) =>
          if is_digit c then
            format_scan (Some (InPrec ljust width (prec * 10 + digit_value c))) fmt' args
          else after_prec ljust width (Some prec)
      | Some (AtConv ljust width prec) => conv ljust width prec
      end
  end.

Definition py_format (fmt : string) (args : list string) : outcome string :=
  format_scan None fmt args.

(** ** [urlparse.urljoin] (Python 2.7 standard library)

    [client.py] imports [urljoin] from [urlparse]; the functions below follow
    that module: [urlsplit], [urlparse], [urlunsplit], [urlunparse] and
    [urljoin], with results as tuples of [str].  The module's parse cache only
    memoises [urlsplit] and is left out. *)

Definition uses_relative : list string :=
  ["ftp"; "http"; "gopher"; "nntp"; "imap"; "wais"; "file"; "https"; "shttp";
   "mms"; "prospero"; "rtsp"; "rtspu"; ""; "sftp"; "svn"; "svn+ssh"].

Definition uses_netloc : list string :=
  ["ftp"; "http"; "gopher"; "nntp"; "telnet"; "imap"; "wais"; "file"; "mms";
   "https"; "shttp"; "snews"; "prospero"; "rtsp"; "rtspu"; "rsync"; "";
   "svn"; "svn+ssh"; "sftp"; "nfs"; "git"; "git+ssh"].

Definition uses_params : list string :=
  ["ftp"; "hdl"; "prospero"; "http"; "imap"; "https"; "shttp"; "rtsp"; "rtspu";
   "sip"; "sips"; "mms"; ""; "sftp"; "tel"].

(** [s in l] for a list of [str] *)
Definition str_in (s : string) (l : list string) : bool :=
  existsb (String.eqb s) l.

(** [c in scheme_chars] *)
Definition is_scheme_char (c : ascii) : bool :=
  is_lower c || is_upper c || is_digit c
  || Ascii.eqb c "+" || Ascii.eqb c "-" || Ascii.eqb c ".".

(** [min(delim, url.find(c, start))] when [c] is found *)
Definition earliest (c : ascii) (start : nat) (url : string) (delim : nat) : nat :=
  match str_find_from c start url with
  | Some w => Nat.min delim w
  | None => delim
  end.

(** [_splitnetloc(url, start)] *)
Definition splitnetloc (url : string) (start : nat) : string * string :=
  let delim := String.length url in
  let delim := earliest "/" start url delim in
  let delim := earliest "?" start url delim in
  let delim := earliest "#" start url delim in
  (str_upto (delim - start) (str_from start url), str_from delim url).

(** The bracket test on a network location *)
Definition invalid_ipv6 (netloc : string) : bool :=
  (str_contains "[" netloc && negb (str_contains "]" netloc))
  || (str_contains "]" netloc && negb (str_contains "[" netloc)).

(** The tail shared by both paths of [urlsplit]: network location, fragment
    and query are cut off [url] in this order. *)
Definition split_rest (scheme url : string)
    : outcome (string * string * string * string * string) :=
  obind (if String.eqb (str_upto 2 url) "//" then
           let '(netloc, url) := splitnetloc url 2 in
           if invalid_ipv6 netloc then Raise (ValueError "Invalid IPv6 URL")
           else Ok (netloc, url)
         else Ok (EmptyString, url)) (fun '(netloc, url) =>
  let '(url, fragment) :=
    if str_contains "#" url then str_split1 "#" url else (url, EmptyString) in
  let '(url, query) :=
    if str_contains "?" url then str_split1 "?" url else (url, EmptyString) in
  Ok (scheme, netloc, url, query, fragment)).

(** [urlsplit(url, scheme)] with [allow_fragments] at its default *)
Definition urlsplit (url scheme : string)
    : outcome (string * string * string * string * string) :=
  match str_find ":" url with
  | Some (S i') =>
      let i := S i' in
      if String.eqb (str_upto i url) "http" then
        split_rest (str_lower (str_upto i url)) (str_from (i + 1) url)
      else if str_all is_scheme_char (str_upto i url) then
        let rest := str_from (i + 1) url in
        if String.eqb rest "" || negb (str_all is_digit rest) then
          split_rest (str_lower (str_upto i url)) rest
        else split_rest scheme url
      else split_rest scheme url
  | _ => split_rest scheme url
  end.

(** [_splitparams(url)] *)
Definition splitparams (url : string) : string * string :=
  let cut (i : option nat) :=
    match i with
    | Some i => (str_upto i url, str_from (i + 1) url)
    | None => (str_upto (String.length url - 1) url, url)
    end in
  if str_contains "/" url then
    match str_find_from ";" (default 0%nat (str_rfind "/" url)) url with
    | None => (url, EmptyString)
    | Some i => cut (Some i)
    end
  else cut (str_find ";" url).

(** [urlparse(url, scheme)]: scheme, netloc, path, params, query, fragment *)
Definition urlparse (url scheme : string)
    : outcome (string * string * string * string * string * string) :=
  obind (urlsplit url scheme) (fun '(scheme, netloc, url, query, fragment) =>
  let '(url, params) :=
    if str_in scheme uses_params && str_contains ";" url then splitparams url
    else (url, EmptyString) in
  Ok (scheme, netloc, url, params, query, fragment)).

(** [urlunsplit((scheme, netloc, url, query, fragment))] *)
Definition urlunsplit (scheme netloc url query fragment : string) : string :=
  let url :=
    if negb (String.eqb netloc "")
       || (negb (String.eqb scheme "") && str_in scheme uses_netloc
           && negb (String.eqb (str_upto 2 url) "//"))
    then
      let url :=
        if negb (String.eqb url "") && negb (String.eqb (str_upto 1 url) "/")
        then "/" +:+ url else url in
      "//" +:+ netloc +:+ url
    else url in
  let url := if negb (String.eqb scheme "") then scheme +:+ ":" +:+ url else url in
  let url := if negb (String.eqb query "") then url +:+ "?" +:+ query else url in
  if negb (String.eqb fragment "") then url +:+ "#" +:+ fragment else url.

(** [urlunparse((scheme, netloc, url, params, query, fragment))] *)
Definition urlunparse (scheme netloc url params query fragment : string) : string :=
  let url := if negb (String.eqb params "") then url +:+ ";" +:+ params else url in
  urlunsplit scheme netloc url query fragment.

(** [l.remove(x)]: the first occurrence goes. *)
Fixpoint list_remove (x : string) (l : list string) : list string :=
  match l with
  | [] => []
  | y :: l' => if String.eqb y x then l' else y :: list_remove x l'
  end.

(** [while '.' in segments: segments.remove('.')]; at most [len(segments)]
    rounds can run. *)
Fixpoint remove_dots (rounds : nat) (segments : list string) : list string :=
  match rounds with
  | O => segments
  | S rounds' =>
      if str_in "." segments then remove_dots rounds' (list_remove "." segments)
      else segments
  end.

(** The inner [while i < n] scan: the first [i] in [1 .. len(segments) - 2]
    with [segments[i] == '..'] and [segments[i-1]] neither [''] nor ['..'].
    [prev] is [segments[i-1]] and [rest] is [segments[i:]]. *)
Fixpoint find_dotdot (prev : string) (rest : list string) (i : nat) : option nat :=
  match rest with
  | cur :: ((_ :: _) as rest') =>
      if String.eqb cur ".." && negb (str_in prev [""; ".."]) then Some i
      else find_dotdot cur rest' (S i)
  | _ => None
  end.

(** The outer [while 1] loop: [del segments[i-1:i+1]] until the scan finds
    nothing; every round shortens the list. *)
Fixpoint collapse_dotdot (rounds : nat) (segments : list string) : list string :=
  match rounds with
  | O => segments
  | S rounds' =>
      match segments with
      | [] => segments
      | first :: rest =>
          match find_dotdot first rest 1 with
          | Some i => collapse_dotdot rounds' (take (i - 1) segments ++ drop (i + 1) segments)
          | None => segments
          end
      end
  end.

(** [segments[-1] = x] *)
Definition set_last (x : string) (segments : list string) : list string :=
  take (length segments - 1) segments ++ [x].

(** The segment normalisation of [urljoin], from [segments = ...] to the
    [return]. *)
Definition normalise_segments (segments : list string) : list string :=
  let segments :=
    if String.eqb (default "" (last segments)) "." then set_last "" segments
    else segments in
  let segments := remove_dots (length segments) segments in
  let segments := collapse_dotdot (length segments) segments in
  if bool_decide (segments = [""; ".."]) then set_last "" segments
  else if (2 <=? length segments)%nat && String.eqb (default "" (last segments)) ".."
  then take (length segments - 2) segments ++ [""]
  else segments.

(** [urljoin(base, url)] *)
Definition urljoin (base url : string) : outcome string :=
  if String.eqb base "" then Ok url
  else if String.eqb url "" then Ok base
  else
    obind (urlparse base "") (fun '(bscheme, bnetloc, bpath, bparams, bquery, bfragment) =>
    obind (urlparse url bscheme) (fun '(scheme, netloc, path, params, query, fragment) =>
    if negb (String.eqb scheme bscheme) || negb (str_in scheme uses_relative) then Ok url
    else
      let absolute := str_in scheme uses_netloc && negb (String.eqb netloc "") in
      if absolute then Ok (urlunparse scheme netloc path params query fragment)
      else
        let netloc := if str_in scheme uses_netloc then bnetloc else netloc in
        if String.eqb (str_upto 1 path) "/" then
          Ok (urlunparse scheme netloc path params query fragment)
        else if String.eqb path "" && String.eqb params "" then
          let query := if String.eqb query "" then bquery else query in
          Ok (urlunparse scheme netloc bpath bparams query fragment)
        else
          let segments :=
            take (length (str_split "/" bpath) - 1) (str_split "/" bpath)
            ++ str_split "/" path in
          Ok (urlunparse scheme netloc (str_join "/" (normalise_segments segments))
                params query fragment))).

(** ** Data model *)

(** Python values that travel as request parameters or come back from a
    parser. *)
#[local] Unset Elimination Schemes.
Inductive pyval : Type :=
| PyNone
| PyBool (b : bool)
| PyInt (z : Z)
| PyStr (s : string)
| PyList (l : list pyval)
| PyDict (d : list (string * pyval)).
#[local] Set Elimination Schemes.

(** A parameter mapping ([**parameters]). *)
Abbreviation kwargs := (gmap string pyval).

(** File attachments: field name to (file name, byte content). *)
Abbreviation attachments := (gmap string (string * string)).

(** What [session.request] comes back with: a response, of which the client
    reads [status_code] and [content], or a
    [requests.exceptions.RequestException] whose [str] is [cause]. *)
Inductive transport_result : Type :=
| Response (status_code : Z) (content : string)
| RequestException (cause : string).

(** The [requests] session: send(method, url, params, files). *)
Record Session : Type := {
  session_auth : option (list string);
  session_request : string -> string -> kwargs -> option attachments -> transport_result
}.

(** The response parser's three capabilities. *)
Record Parser : Type := {
  supports_format : string -> bool;
  parse_content : string -> outcome pyval;
  parse_error : string -> outcome string
}.

(** The attributes [__init__] sets on [self].  An attribute that holds an
    object may hold [None]; [request] tests [self.parser] for truth. *)
Record Client : Type := {
  base_url : string;
  session : Session;
  parser : option Parser;
  response_format : string
}.

(** The value of [request]'s [parameters] argument: [None] (the default), a
    mapping, or an object that is neither (a module, a class, a function). *)
Inductive params_value : Type :=
| NoneValue
| DictValue (d : kwargs)
| ObjectValue (name : string).

(** What [request] returns: the parser's value, or [r.content] itself. *)
Inductive reply : Type :=
| Parsed (v : pyval)
| RawBody (content : string).

(** The [media] argument of [update_status]. *)
Inductive media_value : Type :=
| NoMedia                                         (* [None] *)
| MediaPath (path : string)                       (* a [str] *)
| MediaTuple (filename : string) (content : string)
| MediaOther.                                     (* anything else *)

(** Calls the pipeline makes on its collaborators, in order. *)
Inductive event : Type :=
| Dispatch (method url : string) (params : kwargs) (files : option attachments)
| ParseContent (content : string)
| ParseError (content : string)
| OpenFile (path : string).

(** ** Methods as state-passing computations

    A method runs on [self], may rebind its attributes, calls collaborators
    and returns or raises. *)
Definition M (A : Type) : Type := Client -> Client * list event * outcome A.

Definition ret {A} (a : A) : M A := fun self => (self, [], Ok a).

Definition raise {A} (e : exn) : M A := fun self => (self, [], Raise e).

Definition bind {A B} (m : M A) (f : A -> M B) : M B :=
  fun self =>
    match m self with
    | (self', t, Ok a) =>
        let '(self'', t', r) := f a self' in (self'', t ++ t', r)
    | (self', t, Raise e) => (self', t, Raise e)
    end.

Definition getattr {A} (attr : Client -> A) : M A := fun self => (self, [], Ok (attr self)).

Definition lift {A} (o : outcome A) : M A := fun self => (self, [], o).

Definition emit (ev : event) : M unit := fun self => (self, [ev], Ok tt).

Notation "'do' x <- m ; k" := (bind m (fun x => k))
  (at level 10, x name, m at level 100, k at level 200).
Notation "'run' m ; k" := (bind m (fun _ => k))
  (at level 10, m at level 100, k at level 200).

Definition final_state {A} (r : Client * list event * outcome A) : Client := r.1.1.
Definition trace {A} (r : Client * list event * outcome A) : list event := r.1.2.
Definition result {A} (r : Client * list event * outcome A) : outcome A := r.2.

(** ** [Client.__init__] *)

(** [requests_session] stands for [requests.session(auth=auth, config=...)];
    the [verbose] stream of its [config] only logs. *)
Definition __init__ (requests_session : option (list string) -> Session)
    (auth : option (list string)) (host : string) (secure : bool)
    (api_version : string) (parser : Parser) (response_format : string)
    : outcome Client :=
  obind (py_format "%s://%%s.%s/%s/"
           [if secure then "https" else "http"; host; api_version]) (fun base_url =>
  let session := requests_session auth in
  if negb (supports_format parser response_format) then
    Raise (TweepyError ("Parse does not support response format: " +:+ response_format))
  else
    Ok {| base_url := base_url; session := session;
          parser := Some parser; response_format := response_format |}).

(** ** [Client.request] *)

(** The first two statements: the absolute URL. *)
Definition request_url (self : Client) (url subdomain : string) : outcome string :=
  obind (py_format (base_url self) [subdomain]) (fun base_url =>
  obind (urljoin base_url url) (fun joined =>
  py_format "%s.%s" [joined; response_format self])).

(** [dict(parameters)] *)
Definition dict (parameters : params_value) : outcome kwargs :=
  match parameters with
  | NoneValue => Raise (TypeError "'NoneType' object is not iterable")
  | DictValue d => Ok d
  | ObjectValue _ => Raise (TypeError "object is not iterable")
  end.

(** [self.parser.parse_error(r.content)] *)
Definition call_parse_error (content : string) : M string :=
  do p <- getattr parser ;
  match p with
  | None => raise (AttributeError "'NoneType' object has no attribute 'parse_error'")
  | Some p => run emit (ParseError content) ; lift (parse_error p content)
  end.

(** [self.parser.parse_content(r.content)] *)
Definition call_parse_content (p : Parser) (content : string) : M pyval :=
  run emit (ParseContent content) ; lift (parse_content p content).

Definition request (method url : string) (parameters : params_value)
    (files : option attachments) (subdomain : string) : M reply :=
  do self <- getattr id ;
  do url <- lift (request_url self url subdomain) ;
  (* try: *)
  do s <- getattr session ;
  do params <- lift (dict parameters) ;
  run emit (Dispatch method url params files) ;
  match session_request s method url params files with
  | RequestException e =>
      do msg <- lift (py_format "Request error: %s" [e]) ;
      raise (TweepyError msg)
  | Response status_code content =>
      if negb (status_code =? 200)%Z then
        do error_msg <- call_parse_error content ;
        do msg <- lift (py_format "API error: %s" [error_msg]) ;
        raise (TweepyError msg)
      else
        do p <- getattr parser ;
        match p with
        | Some p =>
            if (0 <? String.length content)%nat then
              do v <- call_parse_content p content ; ret (Parsed v)
            else ret (RawBody content)
        | None => ret (RawBody content)
        end
  end.

(** ** Endpoint methods *)

(** The module-level names of [client.py]: its imports and its class. *)
Definition module_globals : list string :=
  ["sys"; "requests"; "urljoin"; "TweepyError"; "JSONParser"; "Client"].

(** Reading a name that is no local of the method: the module's globals are
    searched (no builtin is spelled like the one name [client.py] reads this
    way), and a name bound nowhere raises [NameError]. *)
Definition load_global (name : string) : outcome params_value :=
  if str_in name module_globals then Ok (ObjectValue name)
  else Raise (NameError ("global name '" +:+ name +:+ "' is not defined")).

Definition home_timeline (parameters : kwargs) : M reply :=
  do paramters <- lift (load_global "paramters") ;
  request "GET" "statuses/home_timeline" paramters None "api".

Definition mentions (parameters : kwargs) : M reply :=
  request "GET" "statuses/mentions" (DictValue parameters) None "api".

Definition public_timeline (parameters : kwargs) : M reply :=
  request "GET" "statuses/public_timeline" (DictValue parameters) None "api".

Definition retweeted_by_me (parameters : kwargs) : M reply :=
  request "GET" "statuses/retweeted_by_me" (DictValue parameters) None "api".

Definition retweeted_to_me (parameters : kwargs) : M reply :=
  request "GET" "statuses/retweeted_to_me" (DictValue parameters) None "api".

Definition retweets_of_me (parameters : kwargs) : M reply :=
  request "GET" "statuses/retweets_of_me" (DictValue parameters) None "api".

Definition user_timeline (screen_name user_id : pyval) (parameters : kwargs) : M reply :=
  let parameters := <["user_id" := user_id]> (<["screen_name" := screen_name]> parameters) in
  request "GET" "statuses/user_timeline" (DictValue parameters) None "api".

Definition retweeted_to_user (id screen_name : pyval) (parameters : kwargs) : M reply :=
  let parameters := <["screen_name" := screen_name]> (<["id" := id]> parameters) in
  request "GET" "statuses/retweeted_to_user" (DictValue parameters) None "api".

Definition retweeted_by_user (id screen_name : pyval) (parameters : kwargs) : M reply :=
  let parameters := <["screen_name" := screen_name]> (<["id" := id]> parameters) in
  request "GET" "statuses/retweeted_by_user" (DictValue parameters) None "api".

(** [status_id] is the identifier as [%s] renders it. *)
Definition retweeted_by (status_id : string) (only_ids : bool) (parameters : kwargs) : M reply :=
  let url := if only_ids then "statuses/%s/retweeted_by/ids" else "statuses/%s/retweeted_by" in
  do url <- lift (py_format url [status_id]) ;
  request "GET" url (DictValue parameters) None "api".

Definition retweets (status_id : string) (parameters : kwargs) : M reply :=
  do url <- lift (py_format "statuses/retweets/%s" [status_id]) ;
  request "GET" url (DictValue parameters) None "api".

Definition show_status (status_id : string) (parameters : kwargs) : M reply :=
  do url <- lift (py_format "statuses/show/%s" [status_id]) ;
  request "GET" url (DictValue parameters) None "api".

Definition destroy_status (status_id : string) (parameters : kwargs) : M reply :=
  do url <- lift (py_format "statuses/destroy/%s" [status_id]) ;
  request "POST" url (DictValue parameters) None "api".

Definition retweet (status_id : string) (parameters : kwargs) : M reply :=
  do url <- lift (py_format "statuses/retweet/%s" [status_id]) ;
  request "POST" url (DictValue parameters) None "api".

(** [open(path, 'rb')] on the file system [fs]; the file object is modelled
    by the bytes it yields. *)
Definition open_rb (fs : string -> option string) (path : string) : M string :=
  run emit (OpenFile path) ;
  match fs path with
  | Some content => ret content
  | None => raise (IOError ("No such file or directory: '" +:+ path +:+ "'"))
  end.

Definition update_status (fs : string -> option string) (status : string)
    (media : media_value) (parameters : kwargs) : M reply :=
  let parameters := <["status" := PyStr status]> parameters in
  do media <- match media with
              | MediaPath path =>
                  do content <- open_rb fs path ; ret (MediaTuple path content)
              | _ => ret media
              end ;
  match media with
  | MediaTuple filename content =>
      request "POST" "statuses/update_with_media" (DictValue parameters)
        (Some {["media[]" := (filename, content)]}) "upload"
  | _ => request "POST" "statuses/update" (DictValue parameters) None "api"
  end.

(** ** The endpoint catalogue as a type of calls *)

Inductive call : Type :=
| CallRequest (method url : string) (parameters : params_value)
    (files : option attachments) (subdomain : string)
| CallHomeTimeline (parameters : kwargs)
| CallMentions (parameters : kwargs)
| CallPublicTimeline (parameters : kwargs)
| CallRetweetedByMe (parameters : kwargs)
| CallRetweetedToMe (parameters : kwargs)
| CallRetweetsOfMe (parameters : kwargs)
| CallUserTimeline (screen_name user_id : pyval) (parameters : kwargs)
| CallRetweetedToUser (id screen_name : pyval) (parameters : kwargs)
| CallRetweetedByUser (id screen_name : pyval) (parameters : kwargs)
| CallRetweetedBy (status_id : string) (only_ids : bool) (parameters : kwargs)
| CallRetweets (status_id : string) (parameters : kwargs)
| CallShowStatus (status_id : string) (parameters : kwargs)
| CallDestroyStatus (status_id : string) (parameters : kwargs)
| CallRetweet (status_id : string) (parameters : kwargs)
| CallUpdateStatus (status : string) (media : media_value) (parameters : kwargs).

Definition perform (fs : string -> option string) (c : call) : M reply :=
  match c with
  | CallRequest method url parameters files subdomain =>
      request method url parameters files subdomain
  | CallHomeTimeline kw => home_timeline kw
  | CallMentions kw => mentions kw
  | CallPublicTimeline kw => public_timeline kw
  | CallRetweetedByMe kw => retweeted_by_me kw
  | CallRetweetedToMe kw => retweeted_to_me kw
  | CallRetweetsOfMe kw => retweets_of_me kw
  | CallUserTimeline screen_name user_id kw => user_timeline screen_name user_id kw
  | CallRetweetedToUser id screen_name kw => retweeted_to_user id screen_name kw
  | CallRetweetedByUser id screen_name kw => retweeted_by_user id screen_name kw
  | CallRetweetedBy status_id only_ids kw => retweeted_by status_id only_ids kw
  | CallRetweets status_id kw => retweets status_id kw
  | CallShowStatus status_id kw => show_status status_id kw
  | CallDestroyStatus status_id kw => destroy_status status_id kw
  | CallRetweet status_id kw => retweet status_id kw
  | CallUpdateStatus status media kw => update_status fs status media kw
  end.

(** The client after a series of calls, whatever each returned or raised. *)
Fixpoint after_calls (fs : string -> option string) (cs : list call) (self : Client) : Client :=
  match cs with
  | [] => self
  | c :: cs' => after_calls fs cs' (final_state (perform fs c self))
  end.

(** ** The documented URL shape *)

(** [scheme://{subdomain}.{host}/{api_version}/{path}.{format}], with
    [https] exactly under secure transport. *)
Definition url_template (secure : bool) (subdomain host api_version path format : string)
    : string :=
  (if secure then "https" else "http") +:+ "://" +:+ subdomain +:+ "." +:+ host
  +:+ "/" +:+ api_version +:+ "/" +:+ path +:+ "." +:+ format.

(** [s] has none of the characters of [chars]. *)
Definition free_of (chars s : string) : bool :=
  str_all (fun c => negb (str_contains c chars)) s.

(** Components that mean themselves inside a URL: no formatting directive
    and no URL delimiter in the host parts, no dot segment in the path. *)
Definition plain_subdomain (s : string) : bool := free_of "/?#[]" s.

Definition plain_host (s : string) : bool := free_of "%/?#[]" s.

Definition plain_segment (s : string) : bool := negb (str_in s ["."; ".."]).

Definition plain_version (s : string) : bool := free_of "%/?#;" s && plain_segment s.

Definition plain_path (s : string) : bool :=
  free_of ":?#;" s && negb (String.eqb (str_upto 1 s) "/")
  && forallb plain_segment (str_split "/" s).

(** The scheme [__init__] picks. *)
Definition scheme_of (secure : bool) : string := if secure then "https" else "http".

(** ** Properties of computations *)

(** A computation that leaves the attributes of [self] as they were. *)
Definition read_only {A} (m : M A) : Prop := forall self, final_state (m self) = self.

(** A reply computed with a parser at hand is raw only when it is empty. *)
Definition raw_only_empty (m : M reply) : Prop :=
  forall self content,
    is_Some (parser self) -> result (m self) = Ok (RawBody content) -> content = "".

(** Every collaborator call of the computation satisfies [P]. *)
Definition events_satisfy {A} (P : Client -> event -> Prop) (m : M A) : Prop :=
  forall self ev, ev ∈ trace (m self) -> P self ev.

(** The collaborator calls of one exchange with the server: nothing, or one
    dispatch, followed by at most one call of the parser. *)
Definition single_exchange (t : list event) : bool :=
  match t with
  | [] => true
  | [Dispatch _ _ _ _] => true
  | [Dispatch _ _ _ _; ParseError _] => true
  | [Dispatch _ _ _ _; ParseContent _] => true
  | _ => false
  end.

(** The trace without the file [update_status] may open first. *)
Definition after_open (t : list event) : list event :=
  match t with
  | OpenFile _ :: t' => t'
  | _ => t
  end.


(** ** Sample collaborators for closed examples *)

(** A parser for the [json] format that wraps the body it is given. *)
Definition sample_parser : Parser := {|
  supports_format := fun format => String.eqb format "json";
  parse_content := fun content => Ok (PyDict [("body", PyStr content)]);
  parse_error := fun content => Ok content
|}.

(** A canned transport: one endpoint is unreachable, one is not found, one
    answers with an empty body, the others echo the method. *)
Definition sample_request (method url : string) (params : kwargs)
    (files : option attachments) : transport_result :=
  if String.eqb url "https://api.twitter.com/1/statuses/mentions.json" then
    RequestException "Connection refused"
  else if String.eqb url "https://api.twitter.com/1/statuses/show/12345.json" then
    Response 404 "Not found"
  else if String.eqb url "https://api.twitter.com/1/statuses/retweets_of_me.json" then
    Response 200 ""
  else Response 200 method.

Definition sample_session (auth : option (list string)) : Session :=
  {| session_auth := auth; session_request := sample_request |}.

Definition sample_fs (path : string) : option string :=
  if String.eqb path "cat.png" then Some "PNG" else None.

(** [Client()] with every argument at its default, the sample parser
    standing for [JSONParser()]. *)
Definition sample_client : Client := {|
  base_url := "https://%s.twitter.com/1/";
  session := sample_session None;
  parser := Some sample_parser;
  response_format := "json"
|}.

(** A parser that only understands bodies opening a JSON object, and
    raises on anything else, also when asked for an error message. *)
Definition strict_parser : Parser := {|
  supports_format := fun format => String.eqb format "json";
  parse_content := fun content =>
    if String.eqb (str_upto 1 content) "{" then Ok (PyStr content)
    else Raise (ValueError "No JSON object could be decoded");
  parse_error := fun content =>
    if String.eqb (str_upto 1 content) "{" then Ok content
    else Raise (ValueError "No JSON object could be decoded")
|}.

Definition strict_client : Client := {|
  base_url := "https://%s.twitter.com/1/";
  session := sample_session None;
  parser := Some strict_parser;
  response_format := "json"
|}.

(** A client whose [parser] attribute was set to [None] after construction. *)
Definition bare_client : Client := {|
  base_url := "https://%s.twitter.com/1/";
  session := sample_session None;
  parser := None;
  response_format := "json"
|}.

(** * Properties *)

(** ** Strings *)

#[local] Arguments String.append !_ _ / : simpl nomatch.

Lemma app_cons (a : ascii) (s t : string) : String a s +:+ t = String a (s +:+ t).
Proof. reflexivity. Qed.

Lemma app_empty_r (s : string) : s +:+ "" = s.
Proof. induction s as [|a s IH]; simpl; [reflexivity | by rewrite IH]. Qed.

Lemma app_assoc (s t u : string) : (s +:+ t) +:+ u = s +:+ (t +:+ u).
Proof. induction s as [|a s IH]; simpl; [reflexivity | by rewrite IH]. Qed.

(** Appends to the right, literals pushed through. *)
Ltac normalise_app :=
  repeat first [rewrite app_assoc | rewrite app_empty_r | progress cbn [String.append]].

Lemma length_app (s t : string) :
  String.length (s +:+ t) = (String.length s + String.length t)%nat.
Proof. induction s as [|a s IH]; simpl; [reflexivity | by rewrite IH]. Qed.

Lemma str_upto_app (s t : string) (n : nat) :
  str_upto (String.length s + n) (s +:+ t) = s +:+ str_upto n t.
Proof. induction s as [|a s IH]; simpl; [reflexivity | by rewrite IH]. Qed.

Lemma str_upto_length (s t : string) : str_upto (String.length s) (s +:+ t) = s.
Proof.
  rewrite <- (Nat.add_0_r (String.length s)), str_upto_app.
  destruct t; simpl; apply app_empty_r.
Qed.

Lemma str_from_app (s t : string) (n : nat) :
  str_from (String.length s + n) (s +:+ t) = str_from n t.
Proof. induction s as [|a s IH]; simpl; [reflexivity | exact IH]. Qed.

Lemma str_from_length (s t : string) : str_from (String.length s) (s +:+ t) = t.
Proof. by rewrite <- (Nat.add_0_r (String.length s)), str_from_app. Qed.

Lemma str_find_app (c : ascii) (s t : string) :
  str_find c (s +:+ t) =
  match str_find c s with
  | Some i => Some i
  | None => option_map (Nat.add (String.length s)) (str_find c t)
  end.
Proof.
  induction s as [|a s IH]; simpl.
  - by destruct (str_find c t).
  - destruct (Ascii.eqb a c); [reflexivity|].
    rewrite IH. destruct (str_find c s); [reflexivity|].
    by destruct (str_find c t).
Qed.

Lemma str_contains_app (c : ascii) (s t : string) :
  str_contains c (s +:+ t) = str_contains c s || str_contains c t.
Proof.
  unfold str_contains. rewrite str_find_app.
  destruct (str_find c s); [reflexivity|]. by destruct (str_find c t).
Qed.

Lemma str_contains_cons (c a : ascii) (s : string) :
  str_contains c (String a s) = Ascii.eqb a c || str_contains c s.
Proof.
  unfold str_contains; simpl. destruct (Ascii.eqb a c); [reflexivity|].
  by destruct (str_find c s).
Qed.

Lemma str_all_app (p : ascii -> bool) (s t : string) :
  str_all p (s +:+ t) = str_all p s && str_all p t.
Proof.
  induction s as [|a s IH]; simpl; [reflexivity|].
  by rewrite IH, andb_assoc.
Qed.

(** A string free of [chars] holds no character of [chars]. *)
Lemma free_of_contains (chars s : string) (c : ascii) :
  free_of chars s = true -> str_contains c chars = true -> str_contains c s = false.
Proof.
  unfold free_of. induction s as [|a s IH]; simpl; intros Hs Hc; [reflexivity|].
  apply andb_true_iff in Hs as [Ha Hs]. rewrite str_contains_cons, (IH Hs Hc).
  destruct (Ascii.eqb_spec a c) as [->|]; [|reflexivity].
  by rewrite Hc in Ha.
Qed.

Lemma contains_find_none (c : ascii) (s : string) :
  str_contains c s = false -> str_find c s = None.
Proof. unfold str_contains. by destruct (str_find c s). Qed.

Lemma free_of_weaken (chars chars' s : string) :
  (forall c, str_contains c chars' = true -> str_contains c chars = true) ->
  free_of chars s = true -> free_of chars' s = true.
Proof.
  unfold free_of. intros Hsub. induction s as [|a s IH]; simpl; [done|].
  intros [Ha Hs]%andb_true_iff. rewrite (IH Hs), andb_true_r.
  destruct (str_contains a chars') eqn:E; [|reflexivity].
  by rewrite (Hsub _ E) in Ha.
Qed.

Lemma free_of_app (chars s t : string) :
  free_of chars (s +:+ t) = free_of chars s && free_of chars t.
Proof. apply str_all_app. Qed.

(** Splitting and joining on a separator are inverse. *)
Lemma str_split_nonempty (c : ascii) (s : string) : str_split c s <> [].
Proof.
  induction s as [|a s IH]; simpl; [done|].
  destruct (Ascii.eqb a c); [done|]. by destruct (str_split c s).
Qed.

Lemma str_join_cons (sep w : string) (ws : list string) :
  ws <> [] -> str_join sep (w :: ws) = w +:+ sep +:+ str_join sep ws.
Proof. by destruct ws. Qed.

Lemma str_join_split (c : ascii) (s : string) :
  str_join (String c "") (str_split c s) = s.
Proof.
  induction s as [|a s IH]; simpl; [reflexivity|].
  destruct (Ascii.eqb_spec a c) as [->|Hne].
  - rewrite str_join_cons by apply str_split_nonempty. simpl. by rewrite IH.
  - pose proof (str_split_nonempty c s) as Hn.
    destruct (str_split c s) as [|w ws]; [done|].
    destruct ws as [|w' ws]; simpl in *; by rewrite <- IH.
Qed.

Lemma str_split_app (c : ascii) (s t : string) :
  str_contains c s = false ->
  str_split c (s +:+ String c t) = s :: str_split c t.
Proof.
  induction s as [|a s IH]; simpl.
  - intros _. by rewrite Ascii.eqb_refl.
  - rewrite str_contains_cons. intros [Ha Hs]%orb_false_iff.
    by rewrite Ha, (IH Hs).
Qed.

(** ** The [%] operator *)

(** Inclusion of character sets given as literals. *)
Ltac chars_included :=
  let c := fresh "c" in
  intros c; rewrite ?str_contains_cons;
  change (str_contains c "") with false;
  repeat match goal with
         | |- context [Ascii.eqb ?a c] => destruct (Ascii.eqb a c); cbn [orb]; try done
         end.

Lemma free_of_percent (chars s : string) :
  str_contains "%" chars = true -> free_of chars s = true -> free_of "%" s = true.
Proof.
  intros Hc. apply free_of_weaken. intros c.
  rewrite str_contains_cons. destruct (Ascii.eqb_spec "%" c) as [<-|]; done.
Qed.

Lemma format_scan_literal (s t : string) (args : list string) :
  free_of "%" s = true ->
  format_scan None (s +:+ t) args =
  obind (format_scan None t args) (fun out => Ok (s +:+ out)).
Proof.
  unfold free_of. induction s as [|a s IH]; simpl.
  - intros _. by destruct (format_scan None t args).
  - intros [Ha Hs]%andb_true_iff. rewrite str_contains_cons, orb_false_r in Ha.
    rewrite Ascii.eqb_sym in Ha. apply negb_true_iff in Ha. rewrite Ha, (IH Hs).
    by destruct (format_scan None t args).
Qed.

Lemma format_scan_text (s : string) :
  free_of "%" s = true -> format_scan None s [] = Ok s.
Proof.
  intros Hs. rewrite <- (app_empty_r s) at 1.
  rewrite format_scan_literal by done. simpl. by rewrite app_empty_r.
Qed.

Lemma format_scan_s (t v : string) (args : list string) :
  format_scan None ("%s" +:+ t) (v :: args) =
  obind (format_scan None t args) (fun out => Ok (v +:+ out)).
Proof. reflexivity. Qed.

Lemma format_scan_percent (t : string) (args : list string) :
  format_scan None ("%%" +:+ t) args =
  obind (format_scan None t args) (fun out => Ok ("%" +:+ out)).
Proof. reflexivity. Qed.

(** The template of [__init__] never fails: three [%s] for three arguments. *)
Lemma format_base_url_template (scheme host api_version : string) :
  py_format "%s://%%s.%s/%s/" [scheme; host; api_version] =
  Ok (scheme +:+ "://%s." +:+ host +:+ "/" +:+ api_version +:+ "/").
Proof.
  unfold py_format. simpl. unfold pad, truncate. reflexivity.
Qed.

(** Substituting the subdomain into a template whose host and version hold
    no [%]. *)
Lemma format_base_url (scheme host api_version subdomain : string) :
  free_of "%" scheme = true -> free_of "%" host = true ->
  free_of "%" api_version = true ->
  py_format (scheme +:+ "://%s." +:+ host +:+ "/" +:+ api_version +:+ "/") [subdomain] =
  Ok (scheme +:+ "://" +:+ subdomain +:+ "." +:+ host +:+ "/" +:+ api_version +:+ "/").
Proof.
  intros Hs Hh Hv. unfold py_format.
  rewrite (format_scan_literal scheme) by done.
  change ("://%s." +:+ ?x) with ("://" +:+ "%s" +:+ "." +:+ x).
  rewrite (format_scan_literal "://") by done.
  rewrite format_scan_s.
  rewrite format_scan_text by (rewrite !free_of_app, Hh, Hv; done).
  reflexivity.
Qed.

(** ** [urljoin] on the URLs the client builds *)

Lemma splitnetloc_authority (netloc rest : string) :
  free_of "/?#" netloc = true -> free_of "?#" rest = true ->
  splitnetloc ("//" +:+ netloc +:+ String "/" rest) 2 = (netloc, String "/" rest).
Proof.
  intros Hn Hr.
  assert (Hslash : str_find "/" (netloc +:+ String "/" rest) = Some (String.length netloc)).
  { rewrite str_find_app, (contains_find_none "/" netloc) by (by eapply free_of_contains).
    simpl. by rewrite Nat.add_0_r. }
  assert (Hother : forall c, str_contains c "?#" = true ->
            str_find c (netloc +:+ String "/" rest) = None).
  { intros c Hc. apply contains_find_none.
    rewrite str_contains_app, str_contains_cons.
    rewrite (free_of_contains "/?#" netloc c), (free_of_contains "?#" rest c); try done.
    - rewrite orb_false_r, orb_false_l.
      destruct (Ascii.eqb_spec "/" c) as [<-|]; [by simpl in Hc | done].
    - revert Hc. rewrite !str_contains_cons. intros ->. apply orb_true_r. }
  set (url := "//" +:+ netloc +:+ String "/" rest).
  assert (Hfirst : earliest "/" 2 url (String.length url) = (2 + String.length netloc)%nat).
  { unfold earliest, str_find_from, url. simpl str_from. rewrite Hslash. simpl option_map.
    apply Nat.min_r. simpl. rewrite length_app. simpl. lia. }
  assert (Hkeep : forall c delim, str_contains c "?#" = true -> earliest c 2 url delim = delim).
  { intros c delim Hc. unfold earliest, str_find_from, url. simpl str_from.
    by rewrite Hother. }
  unfold splitnetloc. fold url. rewrite Hfirst, !Hkeep by done.
  replace (2 + String.length netloc - 2)%nat with (String.length netloc) by lia.
  unfold url. simpl str_from. rewrite str_upto_length.
  by rewrite <- (Nat.add_0_r (String.length netloc)), str_from_app.
Qed.

Lemma split_rest_authority (scheme netloc rest : string) :
  free_of "/?#[]" netloc = true -> free_of "?#" rest = true ->
  split_rest scheme ("//" +:+ netloc +:+ String "/" rest) =
  Ok (scheme, netloc, String "/" rest, "", "").
Proof.
  intros Hn Hr. unfold split_rest. simpl str_upto. simpl String.eqb.
  rewrite splitnetloc_authority; [|by eapply free_of_weaken; [|exact Hn]; chars_included|done].
  unfold invalid_ipv6.
  rewrite !(free_of_contains "/?#[]" netloc) by done. simpl.
  repeat (rewrite str_contains_cons, (free_of_contains "?#" rest) by done; simpl).
  reflexivity.
Qed.

(** The base URL parses into its scheme, its authority and its path. *)
Lemma urlparse_base (secure : bool) (netloc rest : string) :
  free_of "/?#[]" netloc = true -> free_of "?#;" rest = true ->
  urlparse (scheme_of secure +:+ "://" +:+ netloc +:+ String "/" rest) "" =
  Ok (scheme_of secure, netloc, String "/" rest, "", "", "").
Proof.
  intros Hn Hr.
  assert (Hr' : free_of "?#" rest = true)
    by (eapply free_of_weaken; [|exact Hr]; chars_included).
  unfold urlparse, urlsplit. destruct secure; simpl;
    change (String "/" (String "/" (netloc +:+ String "/" rest)))
      with ("//" +:+ netloc +:+ String "/" rest);
    rewrite split_rest_authority by done; simpl;
    rewrite str_contains_cons, (free_of_contains "?#;" rest) by done; reflexivity.
Qed.

Lemma not_rooted_no_authority (path : string) :
  String.eqb (str_upto 1 path) "/" = false -> String.eqb (str_upto 2 path) "//" = false.
Proof.
  destruct path as [|a [|b path]]; simpl; try done;
    destruct (Ascii.eqb a "/"); done.
Qed.

(** A path without delimiters parses into itself under the base's scheme. *)
Lemma urlparse_relative (path scheme : string) :
  free_of ":?#;" path = true -> String.eqb (str_upto 1 path) "/" = false ->
  urlparse path scheme = Ok (scheme, "", path, "", "", "").
Proof.
  intros Hp Hroot. unfold urlparse, urlsplit.
  rewrite (contains_find_none ":" path) by (by eapply free_of_contains).
  unfold split_rest. rewrite not_rooted_no_authority by done. simpl.
  rewrite !(free_of_contains ":?#;" path) by done. cbn [obind].
  rewrite (free_of_contains ":?#;" path) by done.
  by rewrite andb_false_r.
Qed.

(** Segments none of which is [.] or [..] are left as they are. *)
Lemma plain_segment_neq (s : string) :
  plain_segment s = true -> String.eqb s "." = false /\ String.eqb s ".." = false.
Proof.
  unfold plain_segment, str_in. simpl. rewrite orb_false_r, negb_true_iff.
  apply orb_false_iff.
Qed.

Lemma str_in_plain (x : string) (l : list string) :
  plain_segment x = false -> forallb plain_segment l = true -> str_in x l = false.
Proof.
  intros Hx. unfold str_in. induction l as [|y l IH]; simpl; [done|].
  intros [Hy Hl]%andb_true_iff. rewrite (IH Hl), orb_false_r.
  destruct (String.eqb_spec x y) as [->|]; [by rewrite Hy in Hx | done].
Qed.

Lemma last_plain (l : list string) :
  forallb plain_segment l = true -> plain_segment (default "" (last l)) = true.
Proof.
  induction l as [|x [|y l] IH]; simpl in *; [done| |].
  - by rewrite andb_true_r.
  - intros [_ H]%andb_true_iff. by apply IH.
Qed.

Lemma remove_dots_plain (rounds : nat) (l : list string) :
  forallb plain_segment l = true -> remove_dots rounds l = l.
Proof. intros Hl. destruct rounds; simpl; [done|]. by rewrite str_in_plain. Qed.

Lemma find_dotdot_plain (prev : string) (rest : list string) (i : nat) :
  forallb plain_segment rest = true -> find_dotdot prev rest i = None.
Proof.
  revert prev i. induction rest as [|cur rest IH]; intros prev i; simpl; [done|].
  intros [Hc Hr]%andb_true_iff. destruct rest as [|next rest]; [done|].
  destruct (plain_segment_neq cur Hc) as [_ ->]. simpl. by apply IH.
Qed.

Lemma collapse_dotdot_plain (rounds : nat) (l : list string) :
  forallb plain_segment l = true -> collapse_dotdot rounds l = l.
Proof.
  intros Hl. destruct rounds, l as [|first rest]; simpl; try done.
  apply andb_true_iff in Hl as [_ Hr]. by rewrite find_dotdot_plain.
Qed.

Lemma normalise_segments_plain (l : list string) :
  forallb plain_segment l = true -> normalise_segments l = l.
Proof.
  intros Hl. unfold normalise_segments.
  destruct (plain_segment_neq _ (last_plain l Hl)) as [Hdot Hdotdot].
  rewrite Hdot, remove_dots_plain, collapse_dotdot_plain, Hdotdot, andb_false_r by done.
  rewrite bool_decide_eq_false_2; [done|].
  intros ->. by vm_compute in Hl.
Qed.

(** Joining a base that ends in [/] with a plain relative path appends the
    path. *)
Lemma urljoin_plain (secure : bool) (netloc api_version path : string) :
  free_of "/?#[]" netloc = true -> netloc <> "" ->
  free_of "/?#;" api_version = true -> plain_segment api_version = true ->
  plain_path path = true ->
  urljoin (scheme_of secure +:+ "://" +:+ netloc +:+ String "/" (api_version +:+ "/")) path =
  Ok (scheme_of secure +:+ "://" +:+ netloc +:+ String "/" (api_version +:+ "/") +:+ path).
Proof.
  intros Hn Hne Hv Hseg Hp. unfold plain_path in Hp.
  apply andb_true_iff in Hp as [[Hfree Hroot]%andb_true_iff Hsegs].
  apply negb_true_iff in Hroot.
  unfold urljoin.
  assert (Hbase : String.eqb (scheme_of secure +:+ "://" +:+ netloc
                    +:+ String "/" (api_version +:+ "/")) "" = false)
    by (by destruct secure).
  rewrite Hbase.
  destruct (String.eqb_spec path "") as [->|Hpath].
  { by rewrite !app_empty_r. }
  rewrite urlparse_base; [|done|].
  2:{ rewrite free_of_app. rewrite andb_true_r.
      eapply free_of_weaken; [|exact Hv]. chars_included. }
  cbn [obind]. rewrite urlparse_relative by done. cbn [obind].
  rewrite String.eqb_refl.
  assert (Hrel : str_in (scheme_of secure) uses_relative = true) by (by destruct secure).
  assert (Hnet : str_in (scheme_of secure) uses_netloc = true) by (by destruct secure).
  rewrite Hrel, Hnet, Hroot. cbn [negb orb andb String.eqb].
  destruct (String.eqb_spec path "") as [|_]; [done|]. cbn [andb].
  assert (Hsplit : str_split "/" (String "/" (api_version +:+ "/")) = [""; api_version; ""]).
  { simpl. rewrite str_split_app; [done|]. by eapply free_of_contains. }
  rewrite Hsplit. cbn [length Nat.sub take app].
  rewrite normalise_segments_plain.
  2:{ cbn [forallb]. by rewrite Hseg, Hsegs. }
  rewrite !str_join_cons by (done || apply str_split_nonempty).
  rewrite str_join_split.
  unfold urlunparse, urlunsplit. cbn [String.eqb negb].
  destruct (String.eqb_spec netloc "") as [|_]; [done|]. cbn [negb orb andb].
  destruct secure; simpl; by rewrite ?app_assoc.
Qed.

(** ** Construction *)

(** [__init__] in closed form. *)
Lemma init_unfold (requests_session : option (list string) -> Session)
    (auth : option (list string)) (host : string) (secure : bool)
    (api_version : string) (p : Parser) (format : string) :
  __init__ requests_session auth host secure api_version p format =
  if supports_format p format then
    Ok {| base_url := scheme_of secure +:+ "://%s." +:+ host +:+ "/" +:+ api_version +:+ "/";
          session := requests_session auth;
          parser := Some p;
          response_format := format |}
  else Raise (TweepyError ("Parse does not support response format: " +:+ format)).
Proof.
  unfold __init__. fold (scheme_of secure). rewrite format_base_url_template.
  cbn [obind]. by destruct (supports_format p format).
Qed.

Lemma init_inv (requests_session : option (list string) -> Session)
    (auth : option (list string)) (host : string) (secure : bool)
    (api_version : string) (p : Parser) (format : string) (self : Client) :
  __init__ requests_session auth host secure api_version p format = Ok self ->
  supports_format p format = true
  /\ base_url self = scheme_of secure +:+ "://%s." +:+ host +:+ "/" +:+ api_version +:+ "/"
  /\ session self = requests_session auth
  /\ parser self = Some p
  /\ response_format self = format.
Proof.
  rewrite init_unfold. destruct (supports_format p format); [|done].
  by intros [= <-].
Qed.

(** ** The absolute URL *)

Lemma request_url_plain (self : Client) (secure : bool)
    (host api_version path subdomain : string) :
  base_url self = scheme_of secure +:+ "://%s." +:+ host +:+ "/" +:+ api_version +:+ "/" ->
  plain_host host = true -> plain_version api_version = true ->
  plain_subdomain subdomain = true -> plain_path path = true ->
  request_url self path subdomain =
  Ok (url_template secure subdomain host api_version path (response_format self)).
Proof.
  unfold plain_host, plain_version, plain_subdomain.
  intros Hbase Hh [Hv Hseg]%andb_true_iff Hs Hp.
  unfold request_url. rewrite Hbase, format_base_url.
  2:{ by destruct secure. }
  2:{ by eapply free_of_percent; [|exact Hh]. }
  2:{ by eapply free_of_percent; [|exact Hv]. }
  cbn [obind].
  replace (scheme_of secure +:+ "://" +:+ subdomain +:+ "." +:+ host +:+ "/" +:+ api_version +:+ "/")
    with (scheme_of secure +:+ "://" +:+ (subdomain +:+ "." +:+ host)
            +:+ String "/" (api_version +:+ "/"))
    by (by rewrite !app_assoc).
  rewrite urljoin_plain; try done.
  - cbn [obind]. unfold url_template. fold (scheme_of secure).
    unfold py_format. simpl. unfold pad, truncate. simpl.
    by normalise_app.
  - rewrite !free_of_app, Hs. simpl.
    eapply free_of_weaken; [|exact Hh]. chars_included.
  - by destruct subdomain.
  - eapply free_of_weaken; [|exact Hv]. chars_included.
Qed.

(** ** [request], case by case *)

Lemma request_url_raises (self : Client) (method url : string)
    (parameters : params_value) (files : option attachments) (subdomain : string) (e : exn) :
  request_url self url subdomain = Raise e ->
  request method url parameters files subdomain self = (self, [], Raise e).
Proof. intros H. unfold request, bind, getattr, lift. simpl. by rewrite H. Qed.

Lemma request_dict_raises (self : Client) (method url : string)
    (parameters : params_value) (files : option attachments) (subdomain full : string)
    (e : exn) :
  request_url self url subdomain = Ok full -> dict parameters = Raise e ->
  request method url parameters files subdomain self = (self, [], Raise e).
Proof. intros H1 H2. unfold request, bind, getattr, lift. simpl. by rewrite H1, H2. Qed.

(** Once the URL is built and the parameters are copied, the request is
    dispatched and its reply decides the rest. *)
Lemma request_dispatched (self : Client) (method url : string)
    (parameters : params_value) (files : option attachments) (subdomain full : string)
    (params : kwargs) :
  request_url self url subdomain = Ok full -> dict parameters = Ok params ->
  request method url parameters files subdomain self =
  let sent := Dispatch method full params files in
  match session_request (session self) method full params files with
  | RequestException cause =>
      (self, [sent], Raise (TweepyError ("Request error: " +:+ cause)))
  | Response status_code content =>
      if negb (status_code =? 200)%Z then
        match parser self with
        | Some p =>
            (self, [sent; ParseError content],
             obind (parse_error p content) (fun msg =>
             Raise (TweepyError ("API error: " +:+ msg))))
        | None =>
            (self, [sent],
             Raise (AttributeError "'NoneType' object has no attribute 'parse_error'"))
        end
      else
        match parser self with
        | Some p =>
            if (0 <? String.length content)%nat then
              (self, [sent; ParseContent content],
               obind (parse_content p content) (fun v => Ok (Parsed v)))
            else (self, [sent], Ok (RawBody content))
        | None => (self, [sent], Ok (RawBody content))
        end
  end.
Proof.
  intros H1 H2.
  unfold request, call_parse_error, call_parse_content, bind, getattr, lift, emit, raise, ret.
  simpl. rewrite H1, H2.
  destruct (session_request (session self) method full params files) as [status content|cause];
    simpl; [|by rewrite app_empty_r].
  destruct (negb (status =? 200)%Z), (parser self) as [p|]; simpl; try done.
  - destruct (parse_error p content); simpl; [|done]. by rewrite app_empty_r.
  - destruct (0 <? String.length content)%nat; simpl; [|done].
    by destruct (parse_content p content).
Qed.

(** A request whose URL is built and whose parameters are a mapping reaches
    the transport first. *)
Lemma request_trace_head (self : Client) (method url : string)
    (parameters : params_value) (files : option attachments) (subdomain full : string)
    (params : kwargs) :
  request_url self url subdomain = Ok full -> dict parameters = Ok params ->
  exists t, trace (request method url parameters files subdomain self) =
            Dispatch method full params files :: t.
Proof.
  intros Hurl Hdict. rewrite (request_dispatched _ _ _ _ _ _ _ _ Hurl Hdict). cbn zeta.
  destruct (session_request _ _ _ _ _) as [status content|cause]; [|by eexists].
  destruct (negb _), (parser self); try destruct (0 <? _)%nat; by eexists.
Qed.

(** ** Methods leave the attributes alone *)

Lemma read_only_ret {A} (a : A) : read_only (ret a).
Proof. done. Qed.

Lemma read_only_raise {A} (e : exn) : read_only (@raise A e).
Proof. done. Qed.

Lemma read_only_lift {A} (o : outcome A) : read_only (lift o).
Proof. done. Qed.

Lemma read_only_getattr {A} (attr : Client -> A) : read_only (getattr attr).
Proof. done. Qed.

Lemma read_only_emit (ev : event) : read_only (emit ev).
Proof. done. Qed.

Lemma read_only_bind {A B} (m : M A) (k : A -> M B) :
  read_only m -> (forall a, read_only (k a)) -> read_only (bind m k).
Proof.
  intros Hm Hk self. unfold bind. specialize (Hm self).
  destruct (m self) as [[self' t] [a|e]]; unfold final_state in *; simpl in *;
    subst self'; [|done].
  specialize (Hk a self). unfold final_state in Hk.
  by destruct (k a self) as [[self'' t'] r].
Qed.

Create HintDb read_only.
#[local] Hint Resolve read_only_ret read_only_raise read_only_lift
  read_only_getattr read_only_emit : read_only.

Ltac read_only_step :=
  first
    [ apply read_only_bind; [|intros ?]
    | progress auto with read_only
    | match goal with
      | |- read_only (match ?x with _ => _ end) => destruct x
      | |- read_only (if ?b then _ else _) => destruct b
      end ].

Lemma read_only_request (method url : string) (parameters : params_value)
    (files : option attachments) (subdomain : string) :
  read_only (request method url parameters files subdomain).
Proof.
  unfold request, call_parse_error, call_parse_content. repeat read_only_step.
Qed.

#[local] Hint Resolve read_only_request : read_only.

Lemma read_only_perform (fs : string -> option string) (c : call) :
  read_only (perform fs c).
Proof.
  destruct c; simpl;
    unfold home_timeline, mentions, public_timeline, retweeted_by_me, retweeted_to_me,
      retweets_of_me, user_timeline, retweeted_to_user, retweeted_by_user, retweeted_by,
      retweets, show_status, destroy_status, retweet, update_status, open_rb;
    repeat read_only_step.
Qed.

Lemma after_calls_id (fs : string -> option string) (cs : list call) (self : Client) :
  after_calls fs cs self = self.
Proof.
  induction cs as [|c cs IH]; simpl; [done|]. by rewrite read_only_perform.
Qed.

(** ** Raw bodies *)

Lemma length_zero_empty (s : string) : (0 <? String.length s)%nat = false -> s = "".
Proof. by destruct s. Qed.

Lemma raw_only_empty_request (method url : string) (parameters : params_value)
    (files : option attachments) (subdomain : string) :
  raw_only_empty (request method url parameters files subdomain).
Proof.
  intros self content [p Hp].
  destruct (request_url self url subdomain) as [full|e] eqn:Hurl.
  2:{ by rewrite (request_url_raises _ _ _ _ _ _ e). }
  destruct (dict parameters) as [params|e] eqn:Hdict.
  2:{ by rewrite (request_dict_raises _ _ _ _ _ _ full e). }
  rewrite (request_dispatched _ _ _ _ _ _ full params) by done. cbn zeta. rewrite Hp.
  destruct (session_request _ _ _ _ _) as [status body|cause]; [|done].
  destruct (negb _).
  { unfold result; simpl. by destruct (parse_error p body). }
  destruct (0 <? String.length body)%nat eqn:Hlen.
  - unfold result; simpl. by destruct (parse_content p body).
  - unfold result; simpl. intros [= <-]. by apply length_zero_empty.
Qed.

Lemma raw_only_empty_bind {A} (m : M A) (k : A -> M reply) :
  read_only m -> (forall a, raw_only_empty (k a)) -> raw_only_empty (bind m k).
Proof.
  intros Hm Hk self content Hp. unfold bind. specialize (Hm self).
  destruct (m self) as [[self' t] [a|e]]; unfold final_state, result in *; simpl in *;
    subst self'; [|done].
  specialize (Hk a self content Hp). unfold result in Hk.
  destruct (k a self) as [[self'' t'] r]. exact Hk.
Qed.

Lemma raw_only_empty_perform (fs : string -> option string) (c : call) :
  raw_only_empty (perform fs c).
Proof.
  destruct c; simpl;
    unfold home_timeline, mentions, public_timeline, retweeted_by_me, retweeted_to_me,
      retweets_of_me, user_timeline, retweeted_to_user, retweeted_by_user, retweeted_by,
      retweets, show_status, destroy_status, retweet, update_status;
    repeat first
      [ apply raw_only_empty_request
      | apply raw_only_empty_bind; [|intros ?]
      | match goal with
        | |- raw_only_empty (match ?x with _ => _ end) => destruct x
        | |- read_only _ => unfold open_rb; repeat read_only_step
        end ].
Qed.

(** * The claims *)

(** ** C1: the absolute URL *)

(** C1, as amended.  On a client built by [__init__], for a host and an API
    version that hold no [%] and no URL delimiter, a subdomain without URL
    delimiter and a relative path without [:], [?], [#], [;], leading [/]
    or dot segment, the URL that [request] builds and dispatches to is
    [scheme://{subdomain}.{host}/{api_version}/{path}.{format}], and it
    starts with [https] exactly when secure transport was selected. *)
Theorem request_url_follows_template
    (requests_session : option (list string) -> Session) (auth : option (list string))
    (host : string) (secure : bool) (api_version : string) (p : Parser)
    (format : string) (self : Client) (path subdomain : string) :
  __init__ requests_session auth host secure api_version p format = Ok self ->
  plain_host host = true -> plain_version api_version = true ->
  plain_subdomain subdomain = true -> plain_path path = true ->
  request_url self path subdomain =
    Ok (url_template secure subdomain host api_version path format)
  /\ (forall method params files, exists t,
        trace (request method path (DictValue params) files subdomain self) =
        Dispatch method (url_template secure subdomain host api_version path format)
          params files :: t)
  /\ (str_upto 5 (url_template secure subdomain host api_version path format) = "https"
      <-> secure = true).
Proof.
  intros Hinit Hh Hv Hs Hp.
  destruct (init_inv _ _ _ _ _ _ _ _ Hinit) as (_ & Hbase & _ & _ & Hfmt).
  assert (Hurl : request_url self path subdomain =
                 Ok (url_template secure subdomain host api_version path format)).
  { rewrite <- Hfmt. by apply request_url_plain. }
  split; [exact Hurl|]. split.
  - intros method params files. by apply request_trace_head.
  - unfold url_template. destruct secure; simpl; split; done.
Qed.

(** C1 as stated fails: a relative path with a dot segment is resolved by
    [urljoin], so the version prefix of the template is gone. *)
Lemma request_url_dot_segment_counterexample :
  __init__ sample_session None "twitter.com" true "1" sample_parser "json" = Ok sample_client
  /\ request_url sample_client "../statuses/home_timeline" "api" =
     Ok "https://api.twitter.com/statuses/home_timeline.json"
  /\ request_url sample_client "../statuses/home_timeline" "api" <>
     Ok (url_template true "api" "twitter.com" "1" "../statuses/home_timeline" "json").
Proof. repeat split; [reflexivity..|]. by vm_compute. Qed.

Lemma request_url_follows_template_witness :
  request_url sample_client "statuses/show/12345" "upload" =
    Ok "https://upload.twitter.com/1/statuses/show/12345.json".
Proof.
  apply (request_url_follows_template sample_session None "twitter.com" true "1"
           sample_parser "json" sample_client "statuses/show/12345" "upload");
    reflexivity.
Defined.

(** ** C2: a status other than 200 *)

(** C2.  When the dispatch of a request answers with a status code other
    than 200, whichever it is, [request] raises the API-level [TweepyError]
    whose message is what the parser's [parse_error] makes of the body; when
    the status is 200, [parse_error] is not called and [request] gives the
    body back or what [parse_content] yields. *)
Theorem non_200_raises_api_error
    (self : Client) (method url : string) (parameters : params_value)
    (files : option attachments) (subdomain full : string) (params : kwargs)
    (status_code : Z) (content : string) :
  request_url self url subdomain = Ok full ->
  dict parameters = Ok params ->
  session_request (session self) method full params files = Response status_code content ->
  (status_code <> 200%Z ->
   forall p msg, parser self = Some p -> parse_error p content = Ok msg ->
     request method url parameters files subdomain self =
     (self, [Dispatch method full params files; ParseError content],
      Raise (TweepyError ("API error: " +:+ msg))))
  /\ (status_code = 200%Z ->
      Forall (fun ev => forall body, ev <> ParseError body)
        (trace (request method url parameters files subdomain self))
      /\ (result (request method url parameters files subdomain self) = Ok (RawBody content)
          \/ exists p, parser self = Some p
               /\ result (request method url parameters files subdomain self) =
                  obind (parse_content p content) (fun v => Ok (Parsed v)))).
Proof.
  intros Hurl Hdict Hsend.
  rewrite (request_dispatched _ _ _ _ _ _ _ _ Hurl Hdict), Hsend. cbn zeta.
  split.
  - intros Hne p msg Hp Hmsg.
    apply Z.eqb_neq in Hne. rewrite Hne, Hp, Hmsg. reflexivity.
  - intros ->. cbn [Z.eqb Pos.eqb negb].
    destruct (parser self) as [p|].
    + destruct (0 <? String.length content)%nat.
      * split; [by repeat constructor|]. right. by exists p.
      * split; [by repeat constructor|]. by left.
    + split; [by repeat constructor|]. by left.
Qed.

Lemma non_200_raises_api_error_witness :
  request "GET" "statuses/show/12345" (DictValue ∅) None "api" sample_client =
  (sample_client,
   [Dispatch "GET" "https://api.twitter.com/1/statuses/show/12345.json" ∅ None;
    ParseError "Not found"],
   Raise (TweepyError "API error: Not found")).
Proof.
  apply (proj1 (non_200_raises_api_error sample_client "GET" "statuses/show/12345"
                  (DictValue ∅) None "api"
                  "https://api.twitter.com/1/statuses/show/12345.json" ∅
                  404 "Not found" eq_refl eq_refl eq_refl))
    with (p := sample_parser);
    [discriminate | reflexivity | reflexivity].
Defined.

(** ** C3: transport failures *)

(** C3.  When the dispatch fails in the transport, [request] raises
    [TweepyError] with the message [Request error: ] followed by the cause;
    the transport's own exception is not what the caller gets. *)
Theorem transport_failure_rewrapped
    (self : Client) (method url : string) (parameters : params_value)
    (files : option attachments) (subdomain full : string) (params : kwargs)
    (cause : string) :
  request_url self url subdomain = Ok full ->
  dict parameters = Ok params ->
  session_request (session self) method full params files = RequestException cause ->
  request method url parameters files subdomain self =
  (self, [Dispatch method full params files],
   Raise (TweepyError ("Request error: " +:+ cause))).
Proof.
  intros Hurl Hdict Hsend.
  by rewrite (request_dispatched _ _ _ _ _ _ _ _ Hurl Hdict), Hsend.
Qed.

Lemma transport_failure_rewrapped_witness :
  request "GET" "statuses/mentions" (DictValue ∅) None "api" sample_client =
  (sample_client,
   [Dispatch "GET" "https://api.twitter.com/1/statuses/mentions.json" ∅ None],
   Raise (TweepyError "Request error: Connection refused")).
Proof.
  apply (transport_failure_rewrapped sample_client "GET" "statuses/mentions"
           (DictValue ∅) None "api" "https://api.twitter.com/1/statuses/mentions.json" ∅
           "Connection refused");
    reflexivity.
Defined.

(** ** C4: a 200 response with a body *)

(** C4.  On a 200 response with a non-empty body, [request] hands the body
    to [parse_content] once and returns exactly what the parser, called
    directly on the same bytes, returns (or raises what it raises). *)
Theorem ok_body_is_parsed
    (self : Client) (method url : string) (parameters : params_value)
    (files : option attachments) (subdomain full : string) (params : kwargs)
    (content : string) (p : Parser) :
  request_url self url subdomain = Ok full ->
  dict parameters = Ok params ->
  session_request (session self) method full params files = Response 200 content ->
  content <> "" ->
  parser self = Some p ->
  request method url parameters files subdomain self =
    (self, [Dispatch method full params files; ParseContent content],
     obind (parse_content p content) (fun v => Ok (Parsed v)))
  /\ (forall v, parse_content p content = Ok v ->
        result (request method url parameters files subdomain self) = Ok (Parsed v)).
Proof.
  intros Hurl Hdict Hsend Hne Hp.
  assert (Hreq : request method url parameters files subdomain self =
                 (self, [Dispatch method full params files; ParseContent content],
                  obind (parse_content p content) (fun v => Ok (Parsed v)))).
  { rewrite (request_dispatched _ _ _ _ _ _ _ _ Hurl Hdict), Hsend. cbn zeta.
    cbn [Z.eqb Pos.eqb negb]. rewrite Hp.
    by destruct content. }
  split; [exact Hreq|]. intros v Hv. by rewrite Hreq, Hv.
Qed.

Lemma ok_body_is_parsed_witness :
  result (request "POST" "statuses/update" (DictValue {["status" := PyStr "hello world"]})
            None "api" sample_client) =
  Ok (Parsed (PyDict [("body", PyStr "POST")])).
Proof.
  apply (proj2 (ok_body_is_parsed sample_client "POST" "statuses/update"
                  (DictValue {["status" := PyStr "hello world"]}) None "api"
                  "https://api.twitter.com/1/statuses/update.json"
                  {["status" := PyStr "hello world"]} "POST" sample_parser
                  eq_refl eq_refl eq_refl ltac:(discriminate) eq_refl));
    reflexivity.
Defined.

(** ** C5: a 200 response without body *)

(** C5.  On a 200 response with an empty body, [request] returns the body as
    it is, and the only collaborator it called is the transport:
    [parse_content] is not invoked. *)
Theorem empty_body_returned_raw
    (self : Client) (method url : string) (parameters : params_value)
    (files : option attachments) (subdomain full : string) (params : kwargs) :
  request_url self url subdomain = Ok full ->
  dict parameters = Ok params ->
  session_request (session self) method full params files = Response 200 "" ->
  request method url parameters files subdomain self =
    (self, [Dispatch method full params files], Ok (RawBody ""))
  /\ Forall (fun ev => forall body, ev <> ParseContent body)
       (trace (request method url parameters files subdomain self)).
Proof.
  intros Hurl Hdict Hsend.
  rewrite (request_dispatched _ _ _ _ _ _ _ _ Hurl Hdict), Hsend. cbn zeta.
  cbn [Z.eqb Pos.eqb negb String.length Nat.ltb Nat.leb].
  destruct (parser self); (split; [reflexivity | by repeat constructor]).
Qed.

Lemma empty_body_returned_raw_witness :
  request "GET" "statuses/retweets_of_me" (DictValue ∅) None "api" sample_client =
  (sample_client,
   [Dispatch "GET" "https://api.twitter.com/1/statuses/retweets_of_me.json" ∅ None],
   Ok (RawBody "")).
Proof.
  apply (proj1 (empty_body_returned_raw sample_client "GET" "statuses/retweets_of_me"
                  (DictValue ∅) None "api"
                  "https://api.twitter.com/1/statuses/retweets_of_me.json" ∅
                  eq_refl eq_refl eq_refl)).
Defined.

(** ** C6: the parser must support the format *)

(** C6.  Constructing a client with a parser that does not declare support
    for the requested format raises [TweepyError]; construction succeeds
    exactly when [supports_format] answers true for the format. *)
Theorem init_requires_supported_format
    (requests_session : option (list string) -> Session) (auth : option (list string))
    (host : string) (secure : bool) (api_version : string) (p : Parser) (format : string) :
  (supports_format p format = false ->
   __init__ requests_session auth host secure api_version p format =
   Raise (TweepyError ("Parse does not support response format: " +:+ format)))
  /\ ((exists self, __init__ requests_session auth host secure api_version p format = Ok self)
      <-> supports_format p format = true).
Proof.
  rewrite init_unfold. destruct (supports_format p format).
  - split; [done|]. split; [done|]. intros _. by eexists.
  - split; [done|]. split; [|done]. by intros [self ?].
Qed.

Lemma init_requires_supported_format_witness :
  __init__ sample_session None "twitter.com" true "1" sample_parser "xml" =
  Raise (TweepyError "Parse does not support response format: xml").
Proof.
  apply (proj1 (init_requires_supported_format sample_session None "twitter.com" true "1"
                  sample_parser "xml")).
  reflexivity.
Defined.

(** ** C7: [update_status] and its media *)

(** C7.  [update_status] with a file-system path as media opens the file and
    sends a POST for [statuses/update_with_media] through the [upload]
    subdomain, the file's bytes attached under [media[]]; without media it
    sends a POST for [statuses/update] through the default [api] subdomain
    with no attachment; both times the status text sits in the parameters
    under [status], and the transport is called with exactly these. *)
Theorem update_status_routing
    (fs : string -> option string) (self : Client) (status : string)
    (parameters : kwargs) (path content : string) :
  fs path = Some content ->
  let sent := <["status" := PyStr status]> parameters in
  let media := Some {["media[]" := (path, content)]} in
  let upload :=
    request "POST" "statuses/update_with_media" (DictValue sent) media "upload" self in
  update_status fs status (MediaPath path) parameters self =
    (final_state upload, OpenFile path :: trace upload, result upload)
  /\ update_status fs status NoMedia parameters self =
     request "POST" "statuses/update" (DictValue sent) None "api" self
  /\ sent !! "status" = Some (PyStr status)
  /\ (forall full, request_url self "statuses/update_with_media" "upload" = Ok full ->
      exists t, trace (update_status fs status (MediaPath path) parameters self) =
                OpenFile path :: Dispatch "POST" full sent media :: t)
  /\ (forall full, request_url self "statuses/update" "api" = Ok full ->
      exists t, trace (update_status fs status NoMedia parameters self) =
                Dispatch "POST" full sent None :: t).
Proof.
  intros Hfs sent media upload.
  assert (Hmedia : update_status fs status (MediaPath path) parameters self =
                   (final_state upload, OpenFile path :: trace upload, result upload)).
  { unfold update_status, open_rb, bind, emit, ret. rewrite Hfs. simpl.
    fold sent. fold media. fold upload. clearbody upload.
    destruct upload as [[self' t] r]. reflexivity. }
  assert (Hplain : update_status fs status NoMedia parameters self =
                   request "POST" "statuses/update" (DictValue sent) None "api" self).
  { unfold update_status, bind, ret. simpl. fold sent. clear upload Hmedia.
    destruct (request _ _ _ _ _ self) as [[self' t] r]. reflexivity. }
  repeat split; [exact Hmedia | exact Hplain | apply lookup_insert_eq | |].
  - intros full Hurl. rewrite Hmedia. unfold trace at 1. simpl.
    destruct (request_trace_head self "POST" _ (DictValue sent) media _ _ sent Hurl eq_refl)
      as [t Ht].
    exists t. unfold upload. by rewrite Ht.
  - intros full Hurl. rewrite Hplain.
    by apply request_trace_head.
Qed.

Lemma update_status_routing_witness :
  trace (update_status sample_fs "hello world" (MediaPath "cat.png") ∅ sample_client) =
  [OpenFile "cat.png";
   Dispatch "POST" "https://upload.twitter.com/1/statuses/update_with_media.json"
     {["status" := PyStr "hello world"]} (Some {["media[]" := ("cat.png", "PNG")]});
   ParseContent "POST"].
Proof.
  rewrite (proj1 (update_status_routing sample_fs sample_client "hello world" ∅
                    "cat.png" "PNG" eq_refl)).
  reflexivity.
Defined.

(** ** C8: [home_timeline] *)

(** C8.  Every call of [home_timeline] raises [NameError] for the name
    [paramters], which is bound nowhere, before [request] is entered:
    nothing is dispatched. *)
Theorem home_timeline_raises_name_error (self : Client) (parameters : kwargs) :
  home_timeline parameters self =
  (self, [], Raise (NameError "global name 'paramters' is not defined")).
Proof. reflexivity. Qed.

(** ** C9: the default of [parameters] *)

(** C9, as amended.  [request] with [parameters] left at [None] never
    returns and never reaches the transport or the parser, for every method,
    path, attachment and subdomain; whenever the URL of the request can be
    built, what it raises is the [TypeError] of [dict(None)]. *)
Theorem request_without_parameters_fails
    (self : Client) (method url : string) (files : option attachments)
    (subdomain : string) :
  (exists e, request method url NoneValue files subdomain self = (self, [], Raise e))
  /\ (forall full, request_url self url subdomain = Ok full ->
        request method url NoneValue files subdomain self =
        (self, [], Raise (TypeError "'NoneType' object is not iterable"))).
Proof.
  split.
  - destruct (request_url self url subdomain) as [full|e] eqn:Hurl.
    + eexists. by apply (request_dict_raises _ _ _ _ _ _ full).
    + exists e. by apply request_url_raises.
  - intros full Hurl. by apply (request_dict_raises _ _ _ _ _ _ full).
Qed.

(** C9 as stated fails: a path whose authority opens a bracket it does not
    close makes [urljoin] raise [ValueError] before [dict(parameters)] is
    evaluated. *)
Lemma request_without_parameters_counterexample :
  request "GET" "//[" NoneValue None "api" sample_client =
    (sample_client, [], Raise (ValueError "Invalid IPv6 URL"))
  /\ forall msg,
       result (request "GET" "//[" NoneValue None "api" sample_client) <> Raise (TypeError msg).
Proof. split; [reflexivity|]. intros msg. by vm_compute. Qed.

Lemma request_without_parameters_fails_witness :
  request "GET" "statuses/public_timeline" NoneValue None "api" sample_client =
  (sample_client, [], Raise (TypeError "'NoneType' object is not iterable")).
Proof.
  apply (proj2 (request_without_parameters_fails sample_client "GET"
                  "statuses/public_timeline" None "api")
           "https://api.twitter.com/1/statuses/public_timeline.json").
  reflexivity.
Defined.

(** ** C10: the invariant of a constructed client *)

(** C10.  A client that [__init__] returned has its parser, and the parser
    supports its response format; whatever calls are made on it afterwards,
    [request] or any endpoint method, [base_url], [parser] and
    [response_format] stay as constructed, so the test [self.parser] of
    [request] never fails and a call returns the raw body only when the body
    is empty. *)
Theorem constructed_client_invariant
    (requests_session : option (list string) -> Session) (auth : option (list string))
    (host : string) (secure : bool) (api_version : string) (p : Parser)
    (format : string) (self : Client) (fs : string -> option string) (calls : list call) :
  __init__ requests_session auth host secure api_version p format = Ok self ->
  let now := after_calls fs calls self in
  parser self = Some p
  /\ supports_format p (response_format self) = true
  /\ base_url now = base_url self
  /\ parser now = Some p
  /\ response_format now = response_format self
  /\ (forall c content, result (perform fs c now) = Ok (RawBody content) -> content = "").
Proof.
  intros Hinit now.
  destruct (init_inv _ _ _ _ _ _ _ _ Hinit) as (Hsup & _ & _ & Hp & Hfmt).
  assert (Hnow : now = self) by apply after_calls_id.
  rewrite Hnow, Hfmt. repeat split; try done.
  intros c content. apply raw_only_empty_perform. rewrite Hp. by eexists.
Qed.

Lemma constructed_client_invariant_witness :
  parser (after_calls sample_fs
            [CallMentions ∅; CallHomeTimeline ∅;
             CallUpdateStatus "hello world" (MediaPath "cat.png") ∅;
             CallRequest "GET" "statuses/retweets_of_me" NoneValue None "api"]
            sample_client) = Some sample_parser.
Proof.
  apply (constructed_client_invariant sample_session None "twitter.com" true "1"
           sample_parser "json" sample_client sample_fs).
  reflexivity.
Defined.

(** * Further properties of the pipeline *)

(** ** What reaches the transport *)

(** [request] calls the transport exactly when the URL could be built and
    the parameters are a mapping, and then with the method, the copied
    parameters and the attachments it was given. *)
Theorem request_dispatch_iff
    (self : Client) (method url : string) (parameters : params_value)
    (files : option attachments) (subdomain : string)
    (method' url' : string) (params' : kwargs) (files' : option attachments) :
  Dispatch method' url' params' files' ∈ trace (request method url parameters files subdomain self)
  <-> request_url self url subdomain = Ok url' /\ dict parameters = Ok params'
      /\ method' = method /\ files' = files.
Proof.
  destruct (request_url self url subdomain) as [full|e] eqn:Hurl.
  2:{ rewrite (request_url_raises _ _ _ _ _ _ e Hurl). unfold trace; simpl.
      rewrite elem_of_nil. split; [done | by intros [? _]]. }
  destruct (dict parameters) as [params|e] eqn:Hdict.
  2:{ rewrite (request_dict_raises _ _ _ _ _ _ full e Hurl Hdict). unfold trace; simpl.
      rewrite elem_of_nil. split; [done | by intros (_ & ? & _)]. }
  rewrite (request_dispatched _ _ _ _ _ _ _ _ Hurl Hdict). cbn zeta.
  destruct (session_request _ _ _ _ _) as [status content|cause];
    [destruct (negb _), (parser self); try destruct (0 <? _)%nat|];
    unfold trace; simpl; rewrite ?elem_of_cons, elem_of_nil;
    (split;
     [ intros H; repeat destruct H as [H|H]; try done; by inversion H
     | intros ([= <-] & [= <-] & -> & ->); by left ]).
Qed.

(** The collaborator calls of [request] are those of a single exchange: no
    second dispatch, no parser call without a dispatch before it, never both
    capabilities of the parser. *)
Lemma request_single_exchange
    (self : Client) (method url : string) (parameters : params_value)
    (files : option attachments) (subdomain : string) :
  single_exchange (trace (request method url parameters files subdomain self)) = true.
Proof.
  destruct (request_url self url subdomain) as [full|e] eqn:Hurl.
  2:{ by rewrite (request_url_raises _ _ _ _ _ _ e Hurl). }
  destruct (dict parameters) as [params|e] eqn:Hdict.
  2:{ by rewrite (request_dict_raises _ _ _ _ _ _ full e Hurl Hdict). }
  rewrite (request_dispatched _ _ _ _ _ _ _ _ Hurl Hdict). cbn zeta.
  destruct (session_request _ _ _ _ _) as [status content|cause]; [|done].
  destruct (negb _), (parser self); try destruct (0 <? _)%nat; done.
Qed.

(** The trace of a computation that first evaluates a pure expression. *)
Lemma trace_bind_lift {A B} (o : outcome A) (k : A -> M B) (self : Client) :
  trace (bind (lift o) k self) =
  match o with Ok a => trace (k a self) | Raise _ => [] end.
Proof.
  unfold bind, lift. destruct o as [a|e]; [|done].
  by destruct (k a self) as [[self' t] r].
Qed.

(** Every method of the client, [request] included, makes at most one
    exchange with the server per call: after the file [update_status] may
    open, one dispatch at most and one parser call at most, in this order.
    Nothing is retried. *)
Theorem perform_single_exchange
    (fs : string -> option string) (c : call) (self : Client) :
  single_exchange (after_open (trace (perform fs c self))) = true.
Proof.
  assert (Hreq : forall method url parameters files subdomain,
            single_exchange
              (after_open (trace (request method url parameters files subdomain self))) = true).
  { intros. pose proof (request_single_exchange self method url parameters files subdomain) as H.
    destruct (trace _) as [|[] t]; done. }
  destruct c; simpl;
    unfold home_timeline, mentions, public_timeline, retweeted_by_me, retweeted_to_me,
      retweets_of_me, user_timeline, retweeted_to_user, retweeted_by_user, retweeted_by,
      retweets, show_status, destroy_status, retweet;
    try apply Hreq;
    try (rewrite trace_bind_lift;
         match goal with |- context [match ?o with _ => _ end] => destruct o end;
         [apply Hreq | done]);
    try done.
  unfold update_status, open_rb, bind, emit, ret, raise.
  destruct media as [|path|filename content|]; simpl.
  - pose proof (Hreq "POST" "statuses/update"
                  (DictValue (<["status" := PyStr status]> parameters)) None "api") as H.
    by destruct (request _ _ _ _ _ self) as [[self' t] r].
  - destruct (fs path) as [content|]; simpl; [|done].
    pose proof (request_single_exchange self "POST" "statuses/update_with_media"
                  (DictValue (<["status" := PyStr status]> parameters))
                  (Some {["media[]" := (path, content)]}) "upload") as H.
    by destruct (request _ _ _ _ _ self) as [[self' t] r].
  - pose proof (Hreq "POST" "statuses/update_with_media"
                  (DictValue (<["status" := PyStr status]> parameters))
                  (Some {["media[]" := (filename, content)]}) "upload") as H.
    by destruct (request _ _ _ _ _ self) as [[self' t] r].
  - pose proof (Hreq "POST" "statuses/update"
                  (DictValue (<["status" := PyStr status]> parameters)) None "api") as H.
    by destruct (request _ _ _ _ _ self) as [[self' t] r].
Qed.


Lemma perform_single_exchange_example :
  trace (perform sample_fs (CallUpdateStatus "hello world" (MediaPath "cat.png") ∅)
           sample_client) =
  [OpenFile "cat.png";
   Dispatch "POST" "https://upload.twitter.com/1/statuses/update_with_media.json"
     {["status" := PyStr "hello world"]} (Some {["media[]" := ("cat.png", "PNG")]});
   ParseContent "POST"].
Proof. reflexivity. Qed.

(** ** Success means a 200 response *)

(** [request] returns a value only when the transport answered 200: the raw
    body when it is empty (or no parser is set), and otherwise what
    [parse_content] returned for the body.  Every other way through the
    method raises. *)
Theorem request_success_implies_200
    (self : Client) (method url : string) (parameters : params_value)
    (files : option attachments) (subdomain : string) (r : reply) :
  result (request method url parameters files subdomain self) = Ok r ->
  exists full params content,
    request_url self url subdomain = Ok full
    /\ dict parameters = Ok params
    /\ session_request (session self) method full params files = Response 200 content
    /\ match r with
       | RawBody body => body = content /\ (content = "" \/ parser self = None)
       | Parsed v => exists p, parser self = Some p /\ content <> ""
                               /\ parse_content p content = Ok v
       end.
Proof.
  destruct (request_url self url subdomain) as [full|e] eqn:Hurl.
  2:{ by rewrite (request_url_raises _ _ _ _ _ _ e Hurl). }
  destruct (dict parameters) as [params|e] eqn:Hdict.
  2:{ by rewrite (request_dict_raises _ _ _ _ _ _ full e Hurl Hdict). }
  rewrite (request_dispatched _ _ _ _ _ _ _ _ Hurl Hdict). cbn zeta.
  destruct (session_request _ _ _ _ _) as [status content|cause] eqn:Hsend; [|done].
  destruct (status =? 200)%Z eqn:Hstatus; cbn [negb].
  2:{ destruct (parser self) as [p|]; unfold result; simpl; [|done].
      by destruct (parse_error p content). }
  apply Z.eqb_eq in Hstatus as ->.
  destruct (parser self) as [p|] eqn:Hp.
  - destruct (0 <? String.length content)%nat eqn:Hlen; unfold result; simpl.
    + destruct (parse_content p content) as [v|e] eqn:Hv; simpl; [|done].
      intros [= <-]. exists full, params, content. repeat split; try done.
      exists p. repeat split; try done. intros ->. done.
    + intros [= <-]. exists full, params, content. repeat split; try done.
      left. by apply length_zero_empty.
  - unfold result; simpl. intros [= <-]. exists full, params, content.
    repeat split; try done. by right.
Qed.

Lemma request_success_implies_200_witness :
  exists full params content,
    request_url sample_client "statuses/update" "api" = Ok full
    /\ dict (DictValue ∅) = Ok params
    /\ session_request (session sample_client) "POST" full params None = Response 200 content
    /\ exists p, parser sample_client = Some p /\ content <> ""
                 /\ parse_content p content = Ok (PyDict [("body", PyStr "POST")]).
Proof.
  apply (request_success_implies_200 sample_client "POST" "statuses/update" (DictValue ∅)
           None "api" (Parsed (PyDict [("body", PyStr "POST")]))).
  reflexivity.
Defined.

(** ** What the parser raises *)

(** An exception raised by the parser leaves [request] as it is: by
    [parse_error] on a status other than 200 (no [TweepyError] is raised
    then), by [parse_content] on a 200 response with a body. *)
Theorem parser_exception_propagates
    (self : Client) (method url : string) (parameters : params_value)
    (files : option attachments) (subdomain full : string) (params : kwargs)
    (status_code : Z) (content : string) (p : Parser) (e : exn) :
  request_url self url subdomain = Ok full ->
  dict parameters = Ok params ->
  session_request (session self) method full params files = Response status_code content ->
  parser self = Some p ->
  (status_code <> 200%Z -> parse_error p content = Raise e ->
   request method url parameters files subdomain self =
   (self, [Dispatch method full params files; ParseError content], Raise e))
  /\ (status_code = 200%Z -> content <> "" -> parse_content p content = Raise e ->
      request method url parameters files subdomain self =
      (self, [Dispatch method full params files; ParseContent content], Raise e)).
Proof.
  intros Hurl Hdict Hsend Hp.
  rewrite (request_dispatched _ _ _ _ _ _ _ _ Hurl Hdict), Hsend, Hp. cbn zeta.
  split.
  - intros Hne He. apply Z.eqb_neq in Hne. by rewrite Hne, He.
  - intros -> Hne He. cbn [Z.eqb Pos.eqb negb]. rewrite He. by destruct content.
Qed.

Lemma parser_exception_propagates_witness :
  request "GET" "statuses/show/12345" (DictValue ∅) None "api" strict_client =
  (strict_client,
   [Dispatch "GET" "https://api.twitter.com/1/statuses/show/12345.json" ∅ None;
    ParseError "Not found"],
   Raise (ValueError "No JSON object could be decoded")).
Proof.
  apply (proj1 (parser_exception_propagates strict_client "GET" "statuses/show/12345"
                  (DictValue ∅) None "api"
                  "https://api.twitter.com/1/statuses/show/12345.json" ∅
                  404 "Not found" strict_parser
                  (ValueError "No JSON object could be decoded")
                  eq_refl eq_refl eq_refl eq_refl));
    [discriminate | reflexivity].
Defined.

(** ** A client without parser *)

(** When the [parser] attribute holds [None], a 200 response is returned as
    its raw body, empty or not, and a response with another status makes
    [request] raise [AttributeError]: there is no parser to ask for the
    message. *)
Theorem request_without_parser
    (self : Client) (method url : string) (parameters : params_value)
    (files : option attachments) (subdomain full : string) (params : kwargs)
    (status_code : Z) (content : string) :
  parser self = None ->
  request_url self url subdomain = Ok full ->
  dict parameters = Ok params ->
  session_request (session self) method full params files = Response status_code content ->
  request method url parameters files subdomain self =
  (self, [Dispatch method full params files],
   if (status_code =? 200)%Z then Ok (RawBody content)
   else Raise (AttributeError "'NoneType' object has no attribute 'parse_error'")).
Proof.
  intros Hp Hurl Hdict Hsend.
  rewrite (request_dispatched _ _ _ _ _ _ _ _ Hurl Hdict), Hsend, Hp. cbn zeta.
  by destruct (status_code =? 200)%Z.
Qed.

Lemma request_without_parser_witness :
  request "POST" "statuses/update" (DictValue ∅) None "api" bare_client =
  (bare_client,
   [Dispatch "POST" "https://api.twitter.com/1/statuses/update.json" ∅ None],
   Ok (RawBody "POST")).
Proof.
  apply (request_without_parser bare_client "POST" "statuses/update" (DictValue ∅) None
           "api" "https://api.twitter.com/1/statuses/update.json" ∅ 200 "POST");
    reflexivity.
Defined.

(** ** One error type *)




(** ** Invariants of every collaborator call *)

Lemma events_satisfy_nil {A} (P : Client -> event -> Prop) (m : M A) :
  (forall self, trace (m self) = []) -> events_satisfy P m.
Proof. intros Hm self ev. rewrite Hm. by rewrite elem_of_nil. Qed.

Lemma events_satisfy_bind {A B} (P : Client -> event -> Prop) (m : M A) (k : A -> M B) :
  read_only m -> events_satisfy P m -> (forall a, events_satisfy P (k a)) ->
  events_satisfy P (bind m k).
Proof.
  intros Hro Hm Hk self ev. unfold bind.
  specialize (Hro self). specialize (Hm self ev).
  destruct (m self) as [[self' t] [a|e]]; unfold final_state, trace in *; simpl in *;
    subst self'; [|exact Hm].
  specialize (Hk a self ev). unfold trace in Hk.
  destruct (k a self) as [[self'' t'] r]. simpl in *.
  rewrite elem_of_app. intros [H|H]; auto.
Qed.

(** What holds of every collaborator call of [request] and of opening a
    file holds of every collaborator call of every method. *)
Lemma events_satisfy_perform (P : Client -> event -> Prop)
    (fs : string -> option string) (c : call) :
  (forall self path, P self (OpenFile path)) ->
  (forall method url parameters files subdomain,
     events_satisfy P (request method url parameters files subdomain)) ->
  events_satisfy P (perform fs c).
Proof.
  intros Hopen Hreq.
  assert (Hopen_rb : forall path, events_satisfy P (open_rb fs path)).
  { intros path self ev. unfold open_rb, bind, emit, ret, raise, trace.
    destruct (fs path); simpl; rewrite elem_of_cons, elem_of_nil;
      intros [->|[]]; apply Hopen. }
  destruct c; simpl;
    unfold home_timeline, mentions, public_timeline, retweeted_by_me, retweeted_to_me,
      retweets_of_me, user_timeline, retweeted_to_user, retweeted_by_user, retweeted_by,
      retweets, show_status, destroy_status, retweet, update_status;
    repeat first
      [ apply Hreq
      | apply Hopen_rb
      | apply events_satisfy_nil; reflexivity
      | apply events_satisfy_bind; [| |intros ?]
      | match goal with
        | |- events_satisfy _ (match ?x with _ => _ end) => destruct x
        | |- read_only _ => unfold open_rb; repeat read_only_step
        end ].
Qed.

(** ** The format suffix *)

Lemma format_pair (a b : string) : py_format "%s.%s" [a; b] = Ok (a +:+ "." +:+ b).
Proof.
  unfold py_format. simpl. unfold pad, truncate. simpl. by rewrite app_empty_r.
Qed.

Lemma request_url_suffix (self : Client) (url subdomain full : string) :
  request_url self url subdomain = Ok full ->
  exists joined, full = joined +:+ "." +:+ response_format self.
Proof.
  unfold request_url.
  destruct (py_format (base_url self) [subdomain]) as [base|]; [|done]. cbn [obind].
  destruct (urljoin base url) as [joined|]; [|done]. cbn [obind].
  rewrite format_pair. intros [= <-]. by exists joined.
Qed.

(** Whatever method is called and whatever path, query or fragment its URL
    carries, the URL handed to the transport ends with a dot and the
    client's response format. *)
Theorem dispatched_url_has_format_suffix
    (fs : string -> option string) (c : call) (self : Client)
    (method url : string) (params : kwargs) (files : option attachments) :
  Dispatch method url params files ∈ trace (perform fs c self) ->
  exists joined, url = joined +:+ "." +:+ response_format self.
Proof.
  intros Hin.
  refine (events_satisfy_perform
            (fun self ev => forall method url params files,
               ev = Dispatch method url params files ->
               exists joined, url = joined +:+ "." +:+ response_format self)
            fs c _ _ self _ Hin method url params files eq_refl).
  - done.
  - clear. intros method url parameters files subdomain self ev Hin m u p f ->.
    apply request_dispatch_iff in Hin as (Hurl & _). by eapply request_url_suffix.
Qed.

Lemma dispatched_url_has_format_suffix_witness :
  exists joined, "https://api.twitter.com/1/statuses/show/12345.json" = joined +:+ "." +:+ "json".
Proof.
  apply (dispatched_url_has_format_suffix sample_fs (CallShowStatus "12345" ∅) sample_client
           "GET" "https://api.twitter.com/1/statuses/show/12345.json" ∅ None).
  vm_compute. left.
Defined.


(** ** Paths that are not appended *)
























(** ** Identifiers in the path *)









(** ** Timelines *)



(** ** Named arguments *)

(** [user_timeline], [retweeted_to_user] and [retweeted_by_user] always send
    both of their named arguments, [None] included when one is left out,
    under their own keys; every other parameter of the caller is sent as
    given. *)
Theorem named_arguments_are_sent
    (self : Client) (a b : pyval) (parameters : kwargs)
    (method url : string) (params : kwargs) (files : option attachments) :
  (Dispatch method url params files ∈ trace (user_timeline a b parameters self) ->
   params !! "screen_name" = Some a /\ params !! "user_id" = Some b
   /\ (forall k, k <> "screen_name" -> k <> "user_id" -> params !! k = parameters !! k)
   /\ method = "GET" /\ files = None)
  /\ (Dispatch method url params files ∈ trace (retweeted_to_user a b parameters self) ->
      params !! "id" = Some a /\ params !! "screen_name" = Some b
      /\ (forall k, k <> "id" -> k <> "screen_name" -> params !! k = parameters !! k)
      /\ method = "GET" /\ files = None)
  /\ (Dispatch method url params files ∈ trace (retweeted_by_user a b parameters self) ->
      params !! "id" = Some a /\ params !! "screen_name" = Some b
      /\ (forall k, k <> "id" -> k <> "screen_name" -> params !! k = parameters !! k)
      /\ method = "GET" /\ files = None).
Proof.
  unfold user_timeline, retweeted_to_user, retweeted_by_user.
  repeat split;
    match goal with H : _ ∈ _ |- _ =>
      apply request_dispatch_iff in H as (_ & [= <-] & -> & ->)
    end;
    try done;
    try (by rewrite lookup_insert_eq);
    try (by rewrite lookup_insert_ne, lookup_insert_eq);
    intros; by rewrite !lookup_insert_ne.
Qed.

Lemma named_arguments_are_sent_witness :
  ({["screen_name" := PyNone; "user_id" := PyInt 7]} : kwargs) !! "screen_name" = Some PyNone.
Proof.
  apply (proj1 (named_arguments_are_sent sample_client PyNone (PyInt 7) ∅
                  "GET" "https://api.twitter.com/1/statuses/user_timeline.json"
                  {["screen_name" := PyNone; "user_id" := PyInt 7]} None)).
  vm_compute. left.
Defined.

(** ** Media that is no readable path *)



(** A media argument given as a tuple is attached as it is, without any
    file being opened; one that is neither a [str] nor a tuple is ignored
    without a word, and the status goes out as if no media had been given. *)
Theorem update_status_other_media
    (fs : string -> option string) (self : Client) (status : string)
    (parameters : kwargs) (filename content : string) :
  update_status fs status (MediaTuple filename content) parameters self =
    request "POST" "statuses/update_with_media"
      (DictValue (<["status" := PyStr status]> parameters))
      (Some {["media[]" := (filename, content)]}) "upload" self
  /\ (forall path, OpenFile path ∉
        trace (update_status fs status (MediaTuple filename content) parameters self))
  /\ update_status fs status MediaOther parameters self =
     update_status fs status NoMedia parameters self.
Proof.
  assert (Htuple : update_status fs status (MediaTuple filename content) parameters self =
                   request "POST" "statuses/update_with_media"
                     (DictValue (<["status" := PyStr status]> parameters))
                     (Some {["media[]" := (filename, content)]}) "upload" self).
  { unfold update_status, bind, ret. simpl.
    destruct (request _ _ _ _ _ self) as [[self' t] r]. reflexivity. }
  split; [exact Htuple|]. split; [|reflexivity].
  intros path Hin. rewrite Htuple in Hin.
  pose proof (request_single_exchange self "POST" "statuses/update_with_media"
                (DictValue (<["status" := PyStr status]> parameters))
                (Some {["media[]" := (filename, content)]}) "upload") as Hshape.
  destruct (trace _) as [|[] [|[] [|]]]; try done;
    repeat (apply elem_of_cons in Hin as [Hin|Hin]; [done|]);
    by apply elem_of_nil in Hin.
Qed.

(** * Scenarios *)

(** [update_status("hello world")]: one POST to [statuses/update.json] on the
    [api] host, the text under [status], no files; the 200 body is parsed. *)
Example scenario_update_status :
  update_status sample_fs "hello world" NoMedia ∅ sample_client =
  (sample_client,
   [Dispatch "POST" "https://api.twitter.com/1/statuses/update.json"
      {["status" := PyStr "hello world"]} None;
    ParseContent "POST"],
   Ok (Parsed (PyDict [("body", PyStr "POST")]))).
Proof. reflexivity. Qed.

(** [show_status(12345)]: one GET to [statuses/show/12345.json]; the 404 is
    raised as an API error with the parser's message. *)
Example scenario_show_status :
  show_status "12345" ∅ sample_client =
  (sample_client,
   [Dispatch "GET" "https://api.twitter.com/1/statuses/show/12345.json" ∅ None;
    ParseError "Not found"],
   Raise (TweepyError "API error: Not found")).
Proof. reflexivity. Qed.

(** A media file that cannot be opened stops [update_status] before any
    request. *)
Example scenario_missing_media :
  update_status sample_fs "hello world" (MediaPath "dog.png") ∅ sample_client =
  (sample_client, [OpenFile "dog.png"],
   Raise (IOError "No such file or directory: 'dog.png'")).
Proof. reflexivity. Qed.

(** A host that holds a formatting directive breaks the substitution of the
    subdomain. *)
Example scenario_directive_in_host :
  obind (__init__ sample_session None "%s" true "1" sample_parser "json")
    (fun self => request_url self "statuses/mentions" "api") =
  Raise (TypeError "not enough arguments for format string").
Proof. reflexivity. Qed.

(** Paths that [urljoin] does not append: rooted, with an authority, with a
    scheme of their own. *)
Example scenario_urljoin_resolution :
  request_url sample_client "/statuses/mentions" "api" =
    Ok "https://api.twitter.com/statuses/mentions.json"
  /\ request_url sample_client "//example.org/x" "api" = Ok "https://example.org/x.json"
  /\ request_url sample_client "mailto:x" "api" = Ok "mailto:x.json"
  /\ request_url sample_client "statuses/./mentions" "api" =
     Ok "https://api.twitter.com/1/statuses/mentions.json".
Proof. repeat split; reflexivity. Qed.
